(** * Amazon Prime dashboard (app.py): data loading and view aggregations

    A shallow embedding of [src/app.py].  The script is a Streamlit page:
    it loads two CSV files through a memoised [load_data], reads one menu
    selection and runs one of eight view branches, each of which derives a
    small aggregate with pandas and hands it to a plotting call.

    The development has these layers:
    - [pd]: what the pandas calls of the script compute, on plain lists
      (boolean indexing, [value_counts], [head], [dropna], the Pearson pass
      of [corr]);
    - [py]: Python objects on a heap, exceptions, and the monad the script
      runs in;
    - [pandas], [px], [st]: the library methods on objects, with the
      defaults the script relies on, and the [st.cache_data] store;
    - [app]: the script itself, statement by statement;
    - [views]: the values each branch builds, as expressions over the
      loaded rows, used to state what the script computes.

    Numbers are exact: a float cell is a rational, the correlation pass
    runs over the reals, and NaN is [None]. *)

From Stdlib Require Import QArith Reals Lra Psatz.
From stdpp Require Import base list sets strings option sorting.

(** ** Data model *)

(** A CSV field that is empty is read as NaN; a column of strings is a list
    of [option string], a column of numbers a list of [option Q] (finite
    float64 values are dyadic rationals). *)

(** One row of [data/titles.csv], with the columns the script names.  The
    files' other columns are only ever displayed and are left out. *)
Record title := Title {
  type : option string;
  primary_genre : option string;
  release_year : option Z;
  imdb_score : option Q;
  imdb_votes : option Q;
  tmdb_score : option Q;
  tmdb_popularity : option Q
}.

(** One row of [data/credits.csv]. *)
Record credit := Credit {
  name : option string;
  role : option string
}.

(** What [read_csv] makes of a well-formed file. *)
Inductive table :=
| Titles (rows : list title)
| Credits (rows : list credit).

(** ** pandas: the operations on columns and rows *)

Module pd.

(** [Series.notna()], one element. *)
Definition notna {A} (v : option A) : bool :=
  match v with Some _ => true | None => false end.

(** [series == scalar], one element: NaN compares unequal to everything. *)
Definition eq_scalar (v : option string) (s : string) : bool :=
  match v with Some x => bool_decide (x = s) | None => false end.

(** [df[mask]]: the rows at which the boolean mask is true, in order, as a
    new frame. *)
Fixpoint boolean_index {A} (rows : list A) (mask : list bool) : list A :=
  match rows, mask with
  | r :: rows', b :: mask' =>
      if b then r :: boolean_index rows' mask' else boolean_index rows' mask'
  | _, _ => []
  end.

(** The counting hash table of [value_counts]: one entry per distinct value,
    in order of first appearance. *)
Fixpoint incr {K} `{EqDecision K} (k : K) (acc : list (K * nat))
  : list (K * nat) :=
  match acc with
  | [] => [(k, 1)]
  | (k', c) :: acc' =>
      if bool_decide (k = k') then (k', S c) :: acc' else (k', c) :: incr k acc'
  end.

Definition hash_count {K} `{EqDecision K} (vals : list K) : list (K * nat) :=
  foldl (λ acc k, incr k acc) [] vals.

(** [sort_values(ascending=False)] on the counts, keeping the table order
    among equal counts. *)
Fixpoint insert_desc {K} (x : K * nat) (l : list (K * nat)) : list (K * nat) :=
  match l with
  | [] => [x]
  | y :: l' => if bool_decide (x.2 < y.2) then y :: insert_desc x l' else x :: l
  end.

Definition sort_values_desc {K} (l : list (K * nat)) : list (K * nat) :=
  foldr insert_desc [] l.

(** [Series.value_counts(dropna=...)]: index = distinct values, data =
    number of occurrences, largest first.  With [dropna] (the default) NaN is
    not counted. *)
Definition value_counts {A} `{EqDecision A} (s : list (option A)) (dropna : bool)
  : list (option A * nat) :=
  sort_values_desc
    (hash_count (if dropna then filter (λ v, is_Some v) s else s)).

(** [.head(n)] *)
Definition head {A} (n : nat) (l : list A) : list A := take n l.

(** The count stored for key [k] in a counting table (0 when absent). *)
Fixpoint stored {K} `{EqDecision K} (k : K) (acc : list (K * nat)) : nat :=
  match acc with
  | [] => 0
  | (k', c) :: acc' => if bool_decide (k = k') then c else stored k acc'
  end.

(** Number of occurrences of [k] in a list of values. *)
Definition occurrences {K} `{EqDecision K} (k : K) (vals : list K) : nat :=
  length (filter (λ v, v = k) vals).

(** [df['col']] for the string columns of a frame; the script subscripts
    no other column, and any other key is reported missing. *)
Definition str_column (t : table) (key : string) : option (list (option string)) :=
  match t with
  | Titles rows =>
      if bool_decide (key = "type") then Some (type <$> rows)
      else if bool_decide (key = "primary_genre") then Some (primary_genre <$> rows)
      else None
  | Credits rows =>
      if bool_decide (key = "name") then Some (name <$> rows)
      else if bool_decide (key = "role") then Some (role <$> rows)
      else None
  end.

(** The float columns of the titles frame, by name. *)
Definition num_field (key : string) : option (title → option Q) :=
  if bool_decide (key = "imdb_score") then Some imdb_score
  else if bool_decide (key = "imdb_votes") then Some imdb_votes
  else if bool_decide (key = "tmdb_score") then Some tmdb_score
  else if bool_decide (key = "tmdb_popularity") then Some tmdb_popularity
  else None.

(** [df[[k1, ..., kn]]]: the rows restricted to the listed float columns. *)
Definition project (keys : list string) (rows : list title)
  : option (list (list (option Q))) :=
  fields ← mapM num_field keys;
  Some ((λ r, (λ f : title → option Q, f r) <$> fields) <$> rows).

(** [DataFrame.dropna()]: keep the rows without any NaN. *)
Definition dropna_rows (rows : list (list (option Q))) : list (list (option Q)) :=
  filter (λ r, Forall is_Some r) rows.

(** [to_numpy(dtype=float)]: NaN stays NaN, numbers become floats, here
    exact reals. *)
Definition to_numpy (rows : list (list (option Q))) : list (list (option R)) :=
  (λ r : list (option Q), (λ v : option Q, Q2R <$> v) <$> r) <$> rows.

(** The running state of the pairwise pass of [nancorr]. *)
Record welford := Welford {
  nobs : nat;
  meanx : R; meany : R;
  ssqdx : R; ssqdy : R;
  covxy : R
}.

Definition welford_init : welford := Welford 0 0 0 0 0 0.

(** One observed pair [(vx, vy)] (Welford's update), over the exact reals:
    the rounding, overflow and underflow of the float64 loop it stands for
    are not part of this model. *)
Definition welford_step (s : welford) (vx vy : R) : welford :=
  let n := S (nobs s) in
  let dx := (vx - meanx s)%R in
  let dy := (vy - meany s)%R in
  let mx := (meanx s + 1 / INR n * dx)%R in
  let my := (meany s + 1 / INR n * dy)%R in
  Welford n mx my
          (ssqdx s + (vx - mx) * dx)%R
          (ssqdy s + (vy - my) * dy)%R
          (covxy s + (vx - mx) * dy)%R.

(** A row takes part only when both cells are numbers. *)
Definition welford_row (s : welford) (xy : option R * option R) : welford :=
  match xy with
  | (Some vx, Some vy) => welford_step s vx vy
  | _ => s
  end.

Definition welford_pass (xs ys : list (option R)) : welford :=
  foldl welford_row welford_init (zip xs ys).

(** The entry for one pair of columns: NaN with fewer than [minp]
    observations or a zero divisor.  The divisor and the quotient are exact
    reals, so what is proved of a numeric entry is proved in exact
    arithmetic. *)
Definition pair_corr (minp : nat) (xs ys : list (option R)) : option R :=
  let s := welford_pass xs ys in
  if bool_decide (nobs s < minp) then None
  else
    let divisor := sqrt (ssqdx s * ssqdy s) in
    if Req_dec_T divisor 0 then None else Some (covxy s / divisor)%R.

(** Column [i] of a matrix given by rows. *)
Definition column (i : nat) (mat : list (list (option R))) : list (option R) :=
  (λ r : list (option R), mjoin (r !! i)) <$> mat.

(** [nancorr(mat, minp)]: the pass runs for [yi <= xi] and the value is
    stored at [xi, yi] and at [yi, xi]. *)
Definition nancorr (K minp : nat) (mat : list (list (option R)))
  : list (list (option R)) :=
  (λ i, (λ j,
     let xi := max i j in
     let yi := min i j in
     pair_corr minp (column xi mat) (column yi mat)) <$> seq 0 K) <$> seq 0 K.

(** The numbers of a column, NaN left out. *)
Definition observed (xs : list (option R)) : list R := omap (λ v, v) xs.

(** Entry [i, j] of a matrix, when in range. *)
Definition entry {A} (m : list (list A)) (i j : nat) : option A :=
  row ← m !! i; row !! j.

End pd.

(** A count table is in chart order when no count is followed by a larger
    one. *)
Definition by_count_desc {K} (a b : K * nat) : Prop := b.2 ≤ a.2.

(** The state of a correlation pass of a column against itself: the two
    means agree, the three sums agree, and the sum of squares is not
    negative. *)
Definition diagonal_state (s : pd.welford) : Prop :=
  pd.meany s = pd.meanx s ∧ pd.ssqdy s = pd.ssqdx s ∧
  pd.covxy s = pd.ssqdx s ∧ (0 <= pd.ssqdx s)%R.

(** ** The rendering boundary *)

(** What a plotly figure draws. *)
Inductive trace :=
| BarTrace (columns : list string) (entries : list (option string * nat))
           (x y : string) (orientation : option string)
| HistogramTrace (x : string) (nbins : nat) (values : list (option Z))
| ScatterTrace (x y : string) (points : list (option Q * option Q)) (opacity : Q)
| ImageTrace (labels : list string) (z : list (list (option R)))
             (text_auto : bool) (color_continuous_scale : string).

Record figure := Figure {
  fig_trace : trace;
  fig_title : string;
  fig_layout : list (string * string);
  fig_xaxes : list (string * string)
}.

(** What the script has put on the page, in order. *)
Inductive element :=
| el_page_config (page_title layout : string)
| el_title (body : string)
| el_markdown (body : string)
| el_sidebar_title (body : string)
| el_radio (label : string) (options : list string)
| el_header (body : string)
| el_subheader (body : string)
| el_write_shape (label : string) (shape : nat * nat)
| el_dataframe (rows : list title)
| el_write_dtypes (dtypes : list (string * string))
| el_selectbox (label : string) (options : list string)
| el_columns (n : nat)
| el_plotly_chart (column : option nat) (fig : figure) (use_container_width : bool).

(** ** Python objects, the heap and the script monad *)

Module py.

Inductive exn :=
| FileNotFoundError (path : string)
| ParserError (path : string)
| KeyError (key : string)
| ValueError (msg : string)
| AttributeError (attr : string)
| PicklingError
| NameError.

Inductive result (A : Type) :=
| Ok (a : A)
| Raise (e : exn).
Global Arguments Ok {A} a.
Global Arguments Raise {A} e.

(** Objects the script creates.  A variable holds a reference. *)
Definition loc := nat.

Inductive obj :=
| DataFrame (t : table)
| SeriesStr (label : string) (vals : list (option string))
| SeriesBool (vals : list bool)
| SeriesCount (label : string) (entries : list (option string * nat))
| DataFrameCount (columns : list string)
                 (entries : list (option string * nat))
| DataFrameNum (columns : list string) (rows : list (list (option Q)))
| DataFrameCorr (labels : list string) (z : list (list (option R)))
| FigureObj (f : figure).

(** A file on disk, as [read_csv] finds it. *)
Inductive file :=
| Missing
| Malformed
| Csv (t : table).

(** The process: the object heap, the page rendered so far, the entry of
    the [st.cache_data] store for [load_data], the disk and the log of file
    reads. *)
Record world := World {
  heap : list obj;
  page : list element;
  cache : option (table * table);
  disk : string → file;
  reads : list string
}.

Definition set_heap (h : list obj) (w : world) : world :=
  World h (page w) (cache w) (disk w) (reads w).
Definition set_page (p : list element) (w : world) : world :=
  World (heap w) p (cache w) (disk w) (reads w).
Definition set_cache (c : option (table * table)) (w : world) : world :=
  World (heap w) (page w) c (disk w) (reads w).
Definition set_reads (r : list string) (w : world) : world :=
  World (heap w) (page w) (cache w) (disk w) r.

(** A statement: runs in a world, returns or raises. An exception skips the
    rest of the block. *)
Definition M (A : Type) : Type := world → result A * world.

Definition ret {A} (a : A) : M A := λ w, (Ok a, w).

Definition bind {A B} (m : M A) (k : A → M B) : M B :=
  λ w, match m w with
       | (Ok a, w') => k a w'
       | (Raise e, w') => (Raise e, w')
       end.

Definition raise {A} (e : exn) : M A := λ w, (Raise e, w).

(** A new object gets the next free reference. *)
Definition alloc (o : obj) : M loc :=
  λ w, (Ok (length (heap w)), set_heap (heap w ++ [o]) w).

Definition deref (l : loc) : M obj :=
  λ w, match heap w !! l with
       | Some o => (Ok o, w)
       | None => (Raise NameError, w)
       end.

(** In-place mutation of the object behind a reference. *)
Definition assign (l : loc) (o : obj) : M unit :=
  λ w, (Ok (), set_heap (<[l:=o]> (heap w)) w).

Definition emit (e : element) : M unit :=
  λ w, (Ok (), set_page (page w ++ [e]) w).

End py.

Notation "x <- m ;; k" := (py.bind m (λ x, k))
  (at level 100, m at next level, right associativity,
   format "'[v' x  <-  m  ;;  '/' k ']'").
Notation "m ;;; k" := (py.bind m (λ _, k))
  (at level 100, right associativity, format "'[v' m  ;;;  '/' k ']'").

(** ** pandas: the methods on objects *)

Module pandas.
Import py.

(** [pd.read_csv(path)] *)
Definition read_csv (path : string) : M loc :=
  λ w, let w := set_reads (reads w ++ [path]) w in
       match disk w path with
       | Missing => (Raise (FileNotFoundError path), w)
       | Malformed => (Raise (ParserError path), w)
       | Csv t => alloc (DataFrame t) w
       end.

(** [df[key]] for a column name. *)
Definition getitem (df : loc) (key : string) : M loc :=
  o <- deref df ;;
  match o with
  | DataFrame t =>
      match pd.str_column t key with
      | Some vals => alloc (SeriesStr key vals)
      | None => raise (KeyError key)
      end
  | _ => raise (KeyError key)
  end.

(** [series.notna()] *)
Definition notna (s : loc) : M loc :=
  o <- deref s ;;
  match o with
  | SeriesStr _ vals => alloc (SeriesBool (pd.notna <$> vals))
  | _ => raise (AttributeError "notna")
  end.

(** [series == scalar] *)
Definition eq (s : loc) (scalar : string) : M loc :=
  o <- deref s ;;
  match o with
  | SeriesStr _ vals => alloc (SeriesBool ((λ v, pd.eq_scalar v scalar) <$> vals))
  | _ => raise (AttributeError "eq")
  end.

(** [df[mask]] for a boolean Series: a new frame. *)
Definition getitem_mask (df mask : loc) : M loc :=
  o <- deref df ;;
  m <- deref mask ;;
  match o, m with
  | DataFrame (Titles rows), SeriesBool b =>
      alloc (DataFrame (Titles (pd.boolean_index rows b)))
  | DataFrame (Credits rows), SeriesBool b =>
      alloc (DataFrame (Credits (pd.boolean_index rows b)))
  | _, _ => raise (KeyError "mask")
  end.

(** [df[[k1, ..., kn]]] *)
Definition getitem_list (df : loc) (keys : list string) : M loc :=
  o <- deref df ;;
  match o with
  | DataFrame (Titles rows) =>
      match pd.project keys rows with
      | Some num => alloc (DataFrameNum keys num)
      | None => raise (KeyError "columns")
      end
  | _ => raise (KeyError "columns")
  end.

(** [frame.dropna()] *)
Definition dropna (df : loc) : M loc :=
  o <- deref df ;;
  match o with
  | DataFrameNum cols rows => alloc (DataFrameNum cols (pd.dropna_rows rows))
  | _ => raise (AttributeError "dropna")
  end.

(** [frame.corr()]: Pearson, [min_periods=1]. *)
Definition corr (df : loc) : M loc :=
  o <- deref df ;;
  match o with
  | DataFrameNum cols rows =>
      alloc (DataFrameCorr cols (pd.nancorr (length cols) 1 (pd.to_numpy rows)))
  | _ => raise (AttributeError "corr")
  end.

(** [series.value_counts()], with the default [dropna=True]. *)
Definition value_counts (s : loc) : M loc :=
  o <- deref s ;;
  match o with
  | SeriesStr label vals => alloc (SeriesCount label (pd.value_counts vals true))
  | _ => raise (AttributeError "value_counts")
  end.

(** [x.head(n)] *)
Definition head (x : loc) (n : nat) : M loc :=
  o <- deref x ;;
  match o with
  | SeriesCount label entries => alloc (SeriesCount label (pd.head n entries))
  | DataFrame (Titles rows) => alloc (DataFrame (Titles (pd.head n rows)))
  | DataFrame (Credits rows) => alloc (DataFrame (Credits (pd.head n rows)))
  | _ => raise (AttributeError "head")
  end.

(** [series.reset_index()]: the index becomes a column of a new frame. *)
Definition reset_index (s : loc) : M loc :=
  o <- deref s ;;
  match o with
  | SeriesCount label entries => alloc (DataFrameCount [label; "count"] entries)
  | _ => raise (AttributeError "reset_index")
  end.

(** [frame.columns = names]: renames in place; the number of names must be
    the number of columns. *)
Definition set_columns (df : loc) (names : list string) : M unit :=
  o <- deref df ;;
  match o with
  | DataFrameCount cols entries =>
      if bool_decide (length names = length cols)
      then assign df (DataFrameCount names entries)
      else raise (ValueError "Length mismatch")
  | _ => raise (AttributeError "columns")
  end.

(** [df.shape] *)
Definition shape (df : loc) : M (nat * nat) :=
  o <- deref df ;;
  match o with
  | DataFrame (Titles rows) => ret (length rows, 7)
  | DataFrame (Credits rows) => ret (length rows, 2)
  | _ => raise (AttributeError "shape")
  end.

(** The dtype [read_csv] gives a column: [object] for strings, [float64]
    for floats, and integers stay [int64] only without NaN. *)
Definition dtypes_of (rows : list title) : list (string * string) :=
  [("type", "object"); ("primary_genre", "object");
   ("release_year",
     if bool_decide (Forall (λ r, is_Some (release_year r)) rows)
     then "int64" else "float64");
   ("imdb_score", "float64"); ("imdb_votes", "float64");
   ("tmdb_score", "float64"); ("tmdb_popularity", "float64")].

(** [df.dtypes] *)
Definition dtypes (df : loc) : M (list (string * string)) :=
  o <- deref df ;;
  match o with
  | DataFrame (Titles rows) => ret (dtypes_of rows)
  | DataFrame (Credits rows) => ret [("name", "object"); ("role", "object")]
  | _ => raise (AttributeError "dtypes")
  end.

End pandas.

(** ** plotly express *)

Module px.
Import py.

(** [px.bar(frame, x=..., y=..., title=..., orientation=...)] on a count
    frame: both axes must name a column of the frame. *)
Definition bar (data_frame : loc) (x y title : string)
    (orientation : option string) : M loc :=
  o <- deref data_frame ;;
  match o with
  | DataFrameCount cols entries =>
      if bool_decide (x ∈ cols ∧ y ∈ cols)
      then alloc (FigureObj (Figure (BarTrace cols entries x y orientation)
                                    title [] []))
      else raise (ValueError x)
  | _ => raise (ValueError "data_frame")
  end.

(** [px.histogram(df, x='release_year', nbins=..., title=...)] *)
Definition histogram (data_frame : loc) (x : string) (nbins : nat)
    (title : string) : M loc :=
  o <- deref data_frame ;;
  match o with
  | DataFrame (Titles rows) =>
      if bool_decide (x = "release_year")
      then alloc (FigureObj (Figure (HistogramTrace x nbins (release_year <$> rows))
                                    title [] []))
      else raise (ValueError x)
  | _ => raise (ValueError "data_frame")
  end.

(** [px.scatter(df, x=..., y=..., title=..., opacity=...)] on two float
    columns of the titles frame. *)
Definition scatter (data_frame : loc) (x y title : string) (opacity : Q)
  : M loc :=
  o <- deref data_frame ;;
  match o with
  | DataFrame (Titles rows) =>
      match pd.num_field x, pd.num_field y with
      | Some fx, Some fy =>
          alloc (FigureObj (Figure
            (ScatterTrace x y ((λ r, (fx r, fy r)) <$> rows) opacity)
            title [] []))
      | _, _ => raise (ValueError x)
      end
  | _ => raise (ValueError "data_frame")
  end.

(** [px.imshow(matrix, text_auto=..., color_continuous_scale=..., title=...)] *)
Definition imshow (img : loc) (text_auto : bool)
    (color_continuous_scale title : string) : M loc :=
  o <- deref img ;;
  match o with
  | DataFrameCorr labels z =>
      alloc (FigureObj (Figure
        (ImageTrace labels z text_auto color_continuous_scale) title [] []))
  | _ => raise (ValueError "img")
  end.

(** [fig.update_layout(...)]: changes the figure in place. *)
Definition update_layout (fig : loc) (settings : list (string * string))
  : M unit :=
  o <- deref fig ;;
  match o with
  | FigureObj f =>
      assign fig (FigureObj (Figure (fig_trace f) (fig_title f)
                                    (fig_layout f ++ settings) (fig_xaxes f)))
  | _ => raise (AttributeError "update_layout")
  end.

(** [fig.update_xaxes(...)]: changes the figure in place. *)
Definition update_xaxes (fig : loc) (settings : list (string * string))
  : M unit :=
  o <- deref fig ;;
  match o with
  | FigureObj f =>
      assign fig (FigureObj (Figure (fig_trace f) (fig_title f)
                                    (fig_layout f) (fig_xaxes f ++ settings)))
  | _ => raise (AttributeError "update_xaxes")
  end.

End px.

(** ** Streamlit *)

Module st.
Import py.

Definition title (body : string) : M unit := emit (el_title body).
Definition markdown (body : string) : M unit := emit (el_markdown body).
Definition header (body : string) : M unit := emit (el_header body).
Definition subheader (body : string) : M unit := emit (el_subheader body).
Definition sidebar_title (body : string) : M unit := emit (el_sidebar_title body).
Definition set_page_config (page_title layout : string) : M unit :=
  emit (el_page_config page_title layout).

(** [st.sidebar.radio(label, options)]: shows the menu and returns the
    user's choice. *)
Definition sidebar_radio (label : string) (options : list string)
    (choice : string) : M string :=
  emit (el_radio label options) ;;; ret choice.

(** [st.selectbox(label, options)] *)
Definition selectbox (label : string) (options : list string)
    (choice : string) : M string :=
  emit (el_selectbox label options) ;;; ret choice.

(** [st.write(label, shape)] *)
Definition write_shape (label : string) (shape : nat * nat) : M unit :=
  emit (el_write_shape label shape).

(** [st.write(dtypes)] *)
Definition write_dtypes (d : list (string * string)) : M unit :=
  emit (el_write_dtypes d).

(** [st.dataframe(df)] *)
Definition dataframe (df : loc) : M unit :=
  o <- deref df ;;
  match o with
  | DataFrame (Titles rows) => emit (el_dataframe rows)
  | _ => raise (ValueError "dataframe")
  end.

(** [st.columns(n)] *)
Definition columns (n : nat) : M unit := emit (el_columns n).

(** [st.plotly_chart(fig, use_container_width=...)], possibly inside a
    [with col:] block. *)
Definition plotly_chart (column : option nat) (fig : loc)
    (use_container_width : bool) : M unit :=
  o <- deref fig ;;
  match o with
  | FigureObj f => emit (el_plotly_chart column f use_container_width)
  | _ => raise (ValueError "figure")
  end.

(** [@st.cache_data] around a function without arguments that returns two
    frames.  On a miss the function runs and a snapshot of what it returned is
    stored; on a hit the function does not run and fresh copies of the
    snapshot are returned.  An exception stores nothing. *)
Definition cache_data (f : M (loc * loc)) : M (loc * loc) :=
  λ w, match cache w with
       | Some (t, c) =>
           (df <- alloc (DataFrame t) ;;
            df_credits <- alloc (DataFrame c) ;;
            ret (df, df_credits)) w
       | None =>
           match f w with
           | (Ok (a, b), w') =>
               match heap w' !! a, heap w' !! b with
               | Some (DataFrame t), Some (DataFrame c) =>
                   (Ok (a, b), set_cache (Some (t, c)) w')
               | _, _ => (Raise PicklingError, w')
               end
           | (Raise e, w') => (Raise e, w')
           end
       end.

End st.

(** ** The script *)

Module app.
Import py.

(** [load_data], lines 37-44, without its decorator. *)
Definition load_data : M (loc * loc) :=
  df <- pandas.read_csv "data/titles.csv" ;;
  df_credits <- pandas.read_csv "data/credits.csv" ;;
  ret (df, df_credits).

(** [load_data] as the script calls it (line 36: [@st.cache_data]). *)
Definition cached_load_data : M (loc * loc) := st.cache_data load_data.

Definition sections : list string :=
  ["Dataset Overview"; "Genre Analysis"; "Content Type Distribution";
   "Release Year Analysis"; "Ratings & Popularity"; "Correlation Analysis";
   "Actors & Directors"; "Conclusion"].

(** Lines 69-80. *)
Definition dataset_overview (df : loc) : M unit :=
  st.header "📁 Dataset Overview" ;;;
  shape <- pandas.shape df ;;
  st.write_shape "**Dataset Shape:**" shape ;;;
  first_rows <- pandas.head df 5 ;;
  st.dataframe first_rows ;;;
  st.subheader "Column Information" ;;;
  dtypes <- pandas.dtypes df ;;
  st.write_dtypes dtypes.

(** Lines 85-108. *)
Definition genre_analysis (df : loc) : M unit :=
  st.header "🎭 Genre Analysis" ;;;
  col <- pandas.getitem df "primary_genre" ;;
  mask <- pandas.notna col ;;
  genre_df <- pandas.getitem_mask df mask ;;
  genres <- pandas.getitem genre_df "primary_genre" ;;
  counted <- pandas.value_counts genres ;;
  genre_counts <- pandas.reset_index counted ;;
  pandas.set_columns genre_counts ["Genre"; "Count"] ;;;
  fig <- px.bar genre_counts "Genre" "Count"
                "Content Distribution by Primary Genre" None ;;
  px.update_layout fig [("title_x", "0.5"); ("xaxis_tickangle", "-45")] ;;;
  st.plotly_chart None fig true.

(** Lines 113-128. *)
Definition content_type_distribution (df : loc) : M unit :=
  st.header "🎬 Movies vs TV Shows" ;;;
  col <- pandas.getitem df "type" ;;
  counted <- pandas.value_counts col ;;
  type_counts <- pandas.reset_index counted ;;
  pandas.set_columns type_counts ["Type"; "Count"] ;;;
  fig <- px.bar type_counts "Type" "Count"
                "Movies vs TV Shows Distribution" None ;;
  px.update_layout fig [("title_x", "0.5")] ;;;
  st.plotly_chart None fig true.

(** Lines 133-145. *)
Definition release_year_analysis (df : loc) : M unit :=
  st.header "📆 Release Year Trends" ;;;
  fig <- px.histogram df "release_year" 30
                      "Distribution of Content by Release Year" ;;
  px.update_layout fig [("title_x", "0.5")] ;;;
  st.plotly_chart None fig true.

(** Lines 150-179. *)
Definition ratings_and_popularity (df : loc) : M unit :=
  st.header "⭐ Ratings & Popularity Analysis" ;;;
  st.columns 2 ;;;
  fig1 <- px.scatter df "imdb_votes" "imdb_score"
                     "IMDb Votes vs IMDb Score" (6 # 10) ;;
  px.update_xaxes fig1 [("type", "log")] ;;;
  px.update_layout fig1 [("title_x", "0.5")] ;;;
  st.plotly_chart (Some 0) fig1 true ;;;
  fig2 <- px.scatter df "tmdb_popularity" "tmdb_score"
                     "TMDB Popularity vs TMDB Score" (6 # 10) ;;
  px.update_xaxes fig2 [("type", "log")] ;;;
  px.update_layout fig2 [("title_x", "0.5")] ;;;
  st.plotly_chart (Some 1) fig2 true.

(** Lines 184-202. *)
Definition correlation_analysis (df : loc) : M unit :=
  st.header "🔗 Correlation Heatmap" ;;;
  selected <- pandas.getitem_list df
    ["imdb_score"; "imdb_votes"; "tmdb_score"; "tmdb_popularity"] ;;
  numeric_df <- pandas.dropna selected ;;
  corr_matrix <- pandas.corr numeric_df ;;
  fig <- px.imshow corr_matrix true "RdBu"
                   "Correlation Heatmap of Ratings & Popularity" ;;
  px.update_layout fig [("title_x", "0.5")] ;;;
  st.plotly_chart None fig true.

(** Lines 207-239.  [choice] is what the user picked in the select box. *)
Definition actors_and_directors (choice : string) (df_credits : loc) : M unit :=
  st.header "🎥 Actor & Director Participation" ;;;
  role <- st.selectbox "Select Role" ["ACTOR"; "DIRECTOR"] choice ;;
  col <- pandas.getitem df_credits "role" ;;
  mask <- pandas.eq col role ;;
  filtered_df <- pandas.getitem_mask df_credits mask ;;
  names <- pandas.getitem filtered_df "name" ;;
  counted <- pandas.value_counts names ;;
  top <- pandas.head counted 20 ;;
  counts <- pandas.reset_index top ;;
  pandas.set_columns counts ["Name"; "Count"] ;;;
  fig <- px.bar counts "Count" "Name"
                ("Top 20 " +:+ role +:+ "s by Participation Volume")
                (Some "h") ;;
  px.update_layout fig [("title_x", "0.5"); ("yaxis.autorange", "reversed")] ;;;
  st.plotly_chart None fig true.

(** Lines 244-258. *)
Definition conclusion : M unit :=
  st.header "📌 Project Conclusion" ;;;
  st.markdown "
        This analysis provided valuable insights into Amazon Prime’s content
        strategy by examining genre dominance, release trends, regional patterns,
        and the relationship between popularity and ratings.

        The findings highlight the importance of balancing **high-performing
        mainstream content** with **diverse regional and genre offerings**.
        Leveraging both popularity and quality metrics can help improve
        recommendations, user satisfaction, and long-term platform growth.
        ".

(** The [if]/[elif] chain of lines 69-258 on the menu selection. *)
Definition view (section choice : string) (df df_credits : loc) : M unit :=
  if bool_decide (section = "Dataset Overview") then dataset_overview df
  else if bool_decide (section = "Genre Analysis") then genre_analysis df
  else if bool_decide (section = "Content Type Distribution")
  then content_type_distribution df
  else if bool_decide (section = "Release Year Analysis")
  then release_year_analysis df
  else if bool_decide (section = "Ratings & Popularity")
  then ratings_and_popularity df
  else if bool_decide (section = "Correlation Analysis")
  then correlation_analysis df
  else if bool_decide (section = "Actors & Directors")
  then actors_and_directors choice df_credits
  else if bool_decide (section = "Conclusion") then conclusion
  else ret ().

(** One run of the script for one menu selection (lines 17-264; the
    [print] of line 12 goes to the console, not to the page). *)
Definition main (selected choice : string) : M unit :=
  st.set_page_config "Amazon Prime Data Analysis" "wide" ;;;
  st.title "📊 Amazon Prime Content Analysis Dashboard" ;;;
  st.markdown "
    This dashboard provides insights into **Amazon Prime TV Shows and Movies**
    using ratings, popularity, genres, release trends, and participation data.
    " ;;;
  loaded <- cached_load_data ;;
  st.sidebar_title "Navigation" ;;;
  section <- st.sidebar_radio "Go to" sections selected ;;
  view section choice loaded.1 loaded.2 ;;;
  st.markdown "---" ;;;
  st.markdown "**Amazon Prime Data Analysis | Built with Streamlit** 🚀".

(** The content of the two loaded frames, read back from the heap. *)
Definition loaded_tables (r : result (loc * loc) * world)
  : result (table * table) :=
  match r with
  | (Ok (a, b), w) =>
      match heap w !! a, heap w !! b with
      | Some (DataFrame t), Some (DataFrame c) => Ok (t, c)
      | _, _ => Raise NameError
      end
  | (Raise e, _) => Raise e
  end.

(** What happens to the process between two runs of the script: the files
    may change and so may the heap and the page; the cache store and the read
    log are the process's own. *)
Definition between_runs (d : string → file) (h : list obj) (p : list element)
    (w : world) : world :=
  World h p (cache w) d (reads w).

(** The invocations of the loader after the first one: before each the
    process may have changed as in [between_runs].  Returns what each
    invocation loaded and the final process state. *)
Fixpoint later_loads (env : list ((string → file) * list obj * list element))
    (w : world) : list (result (table * table)) * world :=
  match env with
  | [] => ([], w)
  | (d, h, p) :: env' =>
      let r := cached_load_data (between_runs d h p w) in
      let rest := later_loads env' r.2 in
      (loaded_tables r :: rest.1, rest.2)
  end.

(** The exception a failed load raises, by the state of the two files. *)
Definition load_error (d : string → file) : option exn :=
  match d "data/titles.csv" with
  | Missing => Some (FileNotFoundError "data/titles.csv")
  | Malformed => Some (ParserError "data/titles.csv")
  | Csv _ =>
      match d "data/credits.csv" with
      | Missing => Some (FileNotFoundError "data/credits.csv")
      | Malformed => Some (ParserError "data/credits.csv")
      | Csv _ => None
      end
  end.

End app.

(** ** What each view builds

    The values the branches compute, written as expressions over the rows
    of the loaded tables, and the objects and page elements each branch
    leaves behind.  The lemmas [*_run] below show that the script computes
    exactly these. *)

Module views.
Import py.

(** Line 89: [df[df['primary_genre'].notna()]]. *)
Definition genre_df (rows : list title) : list title :=
  pd.boolean_index rows (pd.notna <$> (primary_genre <$> rows)).

(** Line 92. *)
Definition genre_counts (rows : list title) : list (option string * nat) :=
  pd.value_counts (primary_genre <$> genre_df rows) true.

Definition genre_figure (rows : list title) : figure :=
  Figure (BarTrace ["Genre"; "Count"] (genre_counts rows) "Genre" "Count" None)
         "Content Distribution by Primary Genre"
         [("title_x", "0.5"); ("xaxis_tickangle", "-45")] [].

(** Line 116. *)
Definition type_counts (rows : list title) : list (option string * nat) :=
  pd.value_counts (type <$> rows) true.

Definition type_figure (rows : list title) : figure :=
  Figure (BarTrace ["Type"; "Count"] (type_counts rows) "Type" "Count" None)
         "Movies vs TV Shows Distribution" [("title_x", "0.5")] [].

Definition release_year_figure (rows : list title) : figure :=
  Figure (HistogramTrace "release_year" 30 (release_year <$> rows))
         "Distribution of Content by Release Year" [("title_x", "0.5")] [].

Definition imdb_figure (rows : list title) : figure :=
  Figure (ScatterTrace "imdb_votes" "imdb_score"
            ((λ r, (imdb_votes r, imdb_score r)) <$> rows) (6 # 10))
         "IMDb Votes vs IMDb Score" [("title_x", "0.5")] [("type", "log")].

Definition tmdb_figure (rows : list title) : figure :=
  Figure (ScatterTrace "tmdb_popularity" "tmdb_score"
            ((λ r, (tmdb_popularity r, tmdb_score r)) <$> rows) (6 # 10))
         "TMDB Popularity vs TMDB Score" [("title_x", "0.5")] [("type", "log")].

Definition numeric_columns : list string :=
  ["imdb_score"; "imdb_votes"; "tmdb_score"; "tmdb_popularity"].

(** Lines 187-188: the four columns of every row. *)
Definition selected (rows : list title) : list (list (option Q)) :=
  (λ r, [imdb_score r; imdb_votes r; tmdb_score r; tmdb_popularity r]) <$> rows.

(** Lines 187-189. *)
Definition numeric_df (rows : list title) : list (list (option Q)) :=
  pd.dropna_rows (selected rows).

(** Line 191. *)
Definition corr_matrix (rows : list title) : list (list (option R)) :=
  pd.nancorr 4 1 (pd.to_numpy (numeric_df rows)).

(** Column [i] of the matrix the correlation is computed from. *)
Definition corr_column (rows : list title) (i : nat) : list (option R) :=
  pd.column i (pd.to_numpy (numeric_df rows)).

Definition corr_figure (rows : list title) : figure :=
  Figure (ImageTrace numeric_columns (corr_matrix rows) true "RdBu")
         "Correlation Heatmap of Ratings & Popularity" [("title_x", "0.5")] [].

(** Line 215: [df_credits[df_credits['role'] == role]]. *)
Definition filtered_df (choice : string) (credits : list credit) : list credit :=
  pd.boolean_index credits ((λ v, pd.eq_scalar v choice) <$> (role <$> credits)).

(** Lines 217-222, before the index is reset. *)
Definition counts (choice : string) (credits : list credit)
  : list (option string * nat) :=
  pd.head 20 (pd.value_counts (name <$> filtered_df choice credits) true).

Definition actors_figure (choice : string) (credits : list credit) : figure :=
  Figure (BarTrace ["Name"; "Count"] (counts choice credits) "Count" "Name"
                   (Some "h"))
         ("Top 20 " +:+ choice +:+ "s by Participation Volume")
         [("title_x", "0.5"); ("yaxis.autorange", "reversed")] [].

Definition conclusion_text : string := "
        This analysis provided valuable insights into Amazon Prime’s content
        strategy by examining genre dominance, release trends, regional patterns,
        and the relationship between popularity and ratings.

        The findings highlight the importance of balancing **high-performing
        mainstream content** with **diverse regional and genre offerings**.
        Leveraging both popularity and quality metrics can help improve
        recommendations, user satisfaction, and long-term platform growth.
        ".

(** The objects a branch allocates, in order, in their final state. *)
Definition objects (section choice : string) (titles : list title)
    (credits : list credit) : list obj :=
  if bool_decide (section = "Dataset Overview")
  then [DataFrame (Titles (pd.head 5 titles))]
  else if bool_decide (section = "Genre Analysis")
  then [SeriesStr "primary_genre" (primary_genre <$> titles);
        SeriesBool (pd.notna <$> (primary_genre <$> titles));
        DataFrame (Titles (genre_df titles));
        SeriesStr "primary_genre" (primary_genre <$> genre_df titles);
        SeriesCount "primary_genre" (genre_counts titles);
        DataFrameCount ["Genre"; "Count"] (genre_counts titles);
        FigureObj (genre_figure titles)]
  else if bool_decide (section = "Content Type Distribution")
  then [SeriesStr "type" (type <$> titles);
        SeriesCount "type" (type_counts titles);
        DataFrameCount ["Type"; "Count"] (type_counts titles);
        FigureObj (type_figure titles)]
  else if bool_decide (section = "Release Year Analysis")
  then [FigureObj (release_year_figure titles)]
  else if bool_decide (section = "Ratings & Popularity")
  then [FigureObj (imdb_figure titles); FigureObj (tmdb_figure titles)]
  else if bool_decide (section = "Correlation Analysis")
  then [DataFrameNum numeric_columns (selected titles);
        DataFrameNum numeric_columns (numeric_df titles);
        DataFrameCorr numeric_columns (corr_matrix titles);
        FigureObj (corr_figure titles)]
  else if bool_decide (section = "Actors & Directors")
  then [SeriesStr "role" (role <$> credits);
        SeriesBool ((λ v, pd.eq_scalar v choice) <$> (role <$> credits));
        DataFrame (Credits (filtered_df choice credits));
        SeriesStr "name" (name <$> filtered_df choice credits);
        SeriesCount "name"
          (pd.value_counts (name <$> filtered_df choice credits) true);
        SeriesCount "name" (counts choice credits);
        DataFrameCount ["Name"; "Count"] (counts choice credits);
        FigureObj (actors_figure choice credits)]
  else [].

(** The page elements a branch renders, in order. *)
Definition elements (section choice : string) (titles : list title)
    (credits : list credit) : list element :=
  if bool_decide (section = "Dataset Overview")
  then [el_header "📁 Dataset Overview";
        el_write_shape "**Dataset Shape:**" (length titles, 7);
        el_dataframe (pd.head 5 titles);
        el_subheader "Column Information";
        el_write_dtypes (pandas.dtypes_of titles)]
  else if bool_decide (section = "Genre Analysis")
  then [el_header "🎭 Genre Analysis";
        el_plotly_chart None (genre_figure titles) true]
  else if bool_decide (section = "Content Type Distribution")
  then [el_header "🎬 Movies vs TV Shows";
        el_plotly_chart None (type_figure titles) true]
  else if bool_decide (section = "Release Year Analysis")
  then [el_header "📆 Release Year Trends";
        el_plotly_chart None (release_year_figure titles) true]
  else if bool_decide (section = "Ratings & Popularity")
  then [el_header "⭐ Ratings & Popularity Analysis";
        el_columns 2;
        el_plotly_chart (Some 0) (imdb_figure titles) true;
        el_plotly_chart (Some 1) (tmdb_figure titles) true]
  else if bool_decide (section = "Correlation Analysis")
  then [el_header "🔗 Correlation Heatmap";
        el_plotly_chart None (corr_figure titles) true]
  else if bool_decide (section = "Actors & Directors")
  then [el_header "🎥 Actor & Director Participation";
        el_selectbox "Select Role" ["ACTOR"; "DIRECTOR"];
        el_plotly_chart None (actors_figure choice credits) true]
  else if bool_decide (section = "Conclusion")
  then [el_header "📌 Project Conclusion"; el_markdown conclusion_text]
  else [].

End views.

(** ** Sample data *)

Module sample.
Import py.

(** Four titles; the third has no type, no genre and no IMDb score. *)
Definition titles : list title :=
  [Title (Some "MOVIE") (Some "drama") (Some 2001%Z)
         (Some (7 # 1)) (Some (1000 # 1)) (Some (6 # 1)) (Some (12 # 1));
   Title (Some "SHOW") (Some "drama") (Some 2010%Z)
         (Some (8 # 1)) (Some (500 # 1)) (Some (7 # 1)) (Some (30 # 1));
   Title None None (Some 1999%Z)
         None (Some (20 # 1)) (Some (5 # 1)) (Some (3 # 1));
   Title (Some "MOVIE") (Some "comedy") None
         (Some (5 # 1)) (Some (100 # 1)) (Some (8 # 1)) (Some (7 # 1))].

(** Two complete titles with the same IMDb score. *)
Definition same_score : list title :=
  [Title (Some "MOVIE") (Some "drama") (Some 2001%Z)
         (Some (7 # 1)) (Some (1000 # 1)) (Some (6 # 1)) (Some (12 # 1));
   Title (Some "SHOW") (Some "comedy") (Some 2010%Z)
         (Some (7 # 1)) (Some (500 # 1)) (Some (8 # 1)) (Some (30 # 1))].

Definition credits : list credit :=
  [Credit (Some "Ann") (Some "ACTOR");
   Credit (Some "Bob") (Some "DIRECTOR");
   Credit (Some "Ann") (Some "ACTOR");
   Credit (Some "Cid") (Some "ACTOR");
   Credit None (Some "ACTOR");
   Credit (Some "Dee") None].

(** 25 names once each and one name three times, all actors. *)
Definition singles : list string :=
  ["a01"; "a02"; "a03"; "a04"; "a05"; "a06"; "a07"; "a08"; "a09"; "a10";
   "a11"; "a12"; "a13"; "a14"; "a15"; "a16"; "a17"; "a18"; "a19"; "a20";
   "a21"; "a22"; "a23"; "a24"; "a25"].

Definition actor (n : string) : credit := Credit (Some n) (Some "ACTOR").

Definition crowd : list credit :=
  actor "star" :: (actor <$> take 10 singles) ++
  actor "star" :: (actor <$> drop 10 singles) ++ [actor "star"].

(** Both files in place. *)
Definition disk (path : string) : file :=
  if bool_decide (path = "data/titles.csv") then Csv (Titles titles)
  else if bool_decide (path = "data/credits.csv") then Csv (Credits credits)
  else Missing.

(** The credits file is gone. *)
Definition broken_disk (path : string) : file :=
  if bool_decide (path = "data/titles.csv") then Csv (Titles titles)
  else Missing.

(** A fresh process. *)
Definition start : world := World [] [] None disk [].
Definition broken_start : world := World [] [] None broken_disk [].

(** A process that has loaded the tables. *)
Definition loaded : world :=
  World [DataFrame (Titles titles); DataFrame (Credits credits)] []
        (Some (Titles titles, Credits credits)) disk
        ["data/titles.csv"; "data/credits.csv"].

Definition loaded_crowd : world :=
  World [DataFrame (Titles titles); DataFrame (Credits crowd)] []
        (Some (Titles titles, Credits crowd)) disk
        ["data/titles.csv"; "data/credits.csv"].

(** A process that has loaded the tables, after both files were deleted. *)
Definition no_disk (path : string) : file := Missing.

Definition loaded_then_deleted : world :=
  World [] [] (Some (Titles titles, Credits credits)) no_disk
        ["data/titles.csv"; "data/credits.csv"].

(** The same tables at other addresses, with another page and cache. *)
Definition elsewhere : world :=
  World [SeriesBool [true]; DataFrame (Credits credits);
         DataFrame (Titles titles)]
        [el_title "earlier run"] None broken_disk [].

End sample.

(** ** The page of one run *)

Module pages.
Import py.

(** Lines 17-31: rendered before the data is loaded. *)
Definition preamble : list element :=
  [el_page_config "Amazon Prime Data Analysis" "wide";
   el_title "📊 Amazon Prime Content Analysis Dashboard";
   el_markdown "
    This dashboard provides insights into **Amazon Prime TV Shows and Movies**
    using ratings, popularity, genres, release trends, and participation data.
    "].

(** Lines 51-64: the sidebar. *)
Definition navigation : list element :=
  [el_sidebar_title "Navigation"; el_radio "Go to" app.sections].

(** Lines 263-264. *)
Definition footer : list element :=
  [el_markdown "---";
   el_markdown "**Amazon Prime Data Analysis | Built with Streamlit** 🚀"].

(** Everything one successful run renders. *)
Definition whole (section choice : string) (titles : list title)
    (credits : list credit) : list element :=
  preamble ++ navigation ++ views.elements section choice titles credits ++ footer.

(** A column is constant over the rows the correlation uses. *)
Definition constant_column (titles : list title) (i : nat) : Prop :=
  ∃ a : R, Forall (λ v, v = a) (pd.observed (views.corr_column titles i)).

(** The number of credits rows with the given role and name. *)
Definition participations (choice n : string) (credits : list credit) : nat :=
  length (filter (λ r, role r = Some choice ∧ name r = Some n) credits).

(** A disk with the given tables in the two files. *)
Definition disk_with (t c : table) (path : string) : file :=
  if bool_decide (path = "data/titles.csv") then Csv t
  else if bool_decide (path = "data/credits.csv") then Csv c
  else Missing.

End pages.
(** *** Facts about the counting table *)

Section counting.
Context {K : Type} `{EqDecision K}.
Implicit Types (k : K) (acc : list (K * nat)) (vals : list K).

Lemma incr_stored_eq k acc : pd.stored k (pd.incr k acc) = S (pd.stored k acc).
Proof.
  induction acc as [|[k' c] acc IH]; simpl.
  - by rewrite bool_decide_eq_true_2.
  - case_bool_decide; simpl; case_bool_decide; done.
Qed.

Lemma incr_stored_ne k k' acc :
  k ≠ k' → pd.stored k' (pd.incr k acc) = pd.stored k' acc.
Proof.
  intros Hne. induction acc as [|[k0 c] acc IH]; simpl.
  - by rewrite bool_decide_eq_false_2.
  - case_bool_decide; simpl; case_bool_decide; subst; congruence.
Qed.

Lemma incr_keys k acc :
  (pd.incr k acc).*1 = if bool_decide (k ∈ acc.*1) then acc.*1 else acc.*1 ++ [k].
Proof.
  induction acc as [|[k' c] acc IH]; csimpl; [done|].
  destruct (decide (k = k')) as [->|Hne].
  - rewrite (bool_decide_eq_true_2 (k' = k')) by done. csimpl.
    rewrite bool_decide_eq_true_2; [done|]. apply elem_of_cons. by left.
  - rewrite (bool_decide_eq_false_2 (k = k')) by done. csimpl. rewrite IH.
    destruct (decide (k ∈ acc.*1)) as [Hin|Hin].
    + rewrite (bool_decide_eq_true_2 _ Hin).
      rewrite bool_decide_eq_true_2; [done|]. apply elem_of_cons. by right.
    + rewrite (bool_decide_eq_false_2 _ Hin).
      rewrite bool_decide_eq_false_2; [done|].
      intros [?|?]%elem_of_cons; done.
Qed.

Lemma incr_NoDup k acc : NoDup acc.*1 → NoDup (pd.incr k acc).*1.
Proof.
  intros Hnd. rewrite incr_keys. case_bool_decide as Hin; [done|].
  apply NoDup_app. split_and!; [done| |apply NoDup_singleton].
  intros x Hx ->%list_elem_of_singleton. done.
Qed.

Lemma incr_sum k acc : sum_list (pd.incr k acc).*2 = S (sum_list acc.*2).
Proof.
  induction acc as [|[k' c] acc IH]; csimpl; [done|].
  case_bool_decide; csimpl; [done|]. rewrite IH. lia.
Qed.

Lemma incr_positive k acc :
  Forall (λ e, 0 < e.2) acc → Forall (λ e, 0 < e.2) (pd.incr k acc).
Proof.
  induction 1 as [|[k' c] acc Hc Hacc IH]; simpl.
  - repeat constructor.
  - case_bool_decide; constructor; simpl in *; try done. lia.
Qed.

Lemma stored_absent k acc : k ∉ acc.*1 → pd.stored k acc = 0.
Proof.
  induction acc as [|[k' c] acc IH]; simpl; [done|].
  intros Hn. case_bool_decide; subst.
  - exfalso. apply Hn, elem_of_cons. by left.
  - apply IH. intros ?. apply Hn, elem_of_cons. by right.
Qed.

Lemma stored_elem k c acc :
  NoDup acc.*1 → (k, c) ∈ acc → pd.stored k acc = c.
Proof.
  induction acc as [|[k' c'] acc IH]; simpl; [by intros _ ?%elem_of_nil|].
  intros [Hn Hnd]%NoDup_cons [Heq|Hin]%elem_of_cons.
  - injection Heq as -> ->. by rewrite bool_decide_eq_true_2.
  - case_bool_decide; subst.
    + exfalso. apply Hn. by apply (list_elem_of_fmap_2 fst _ (k', c)).
    + by apply IH.
Qed.

Lemma stored_key k acc :
  Forall (λ e, 0 < e.2) acc → 0 < pd.stored k acc → (k, pd.stored k acc) ∈ acc.
Proof.
  induction 1 as [|[k' c] acc Hc Hacc IH]; simpl; [lia|].
  case_bool_decide; subst; intros ?; apply elem_of_cons; [by left|].
  right. by apply IH.
Qed.

Lemma occurrences_cons k v vals :
  pd.occurrences k (v :: vals) =
  (if bool_decide (v = k) then 1 else 0) + pd.occurrences k vals.
Proof.
  unfold pd.occurrences. rewrite filter_cons.
  case_decide; case_bool_decide; done.
Qed.

(** The table after counting [vals] on top of [acc]. *)
Lemma foldl_incr_stored k vals acc :
  pd.stored k (foldl (λ acc k, pd.incr k acc) acc vals) =
  pd.stored k acc + pd.occurrences k vals.
Proof.
  revert acc. induction vals as [|v vals IH]; intros acc; simpl.
  - unfold pd.occurrences. simpl. lia.
  - rewrite IH, occurrences_cons. case_bool_decide; subst.
    + rewrite incr_stored_eq. lia.
    + rewrite incr_stored_ne by done. lia.
Qed.

Lemma foldl_incr_NoDup vals acc :
  NoDup acc.*1 → NoDup (foldl (λ acc k, pd.incr k acc) acc vals).*1.
Proof.
  revert acc. induction vals as [|v vals IH]; intros acc Hnd; simpl; [done|].
  by apply IH, incr_NoDup.
Qed.

Lemma foldl_incr_sum vals acc :
  sum_list (foldl (λ acc k, pd.incr k acc) acc vals).*2 =
  sum_list acc.*2 + length vals.
Proof.
  revert acc. induction vals as [|v vals IH]; intros acc; simpl; [lia|].
  rewrite IH, incr_sum. lia.
Qed.

Lemma foldl_incr_positive vals acc :
  Forall (λ e, 0 < e.2) acc →
  Forall (λ e, 0 < e.2) (foldl (λ acc k, pd.incr k acc) acc vals).
Proof.
  revert acc. induction vals as [|v vals IH]; intros acc Hp; simpl; [done|].
  by apply IH, incr_positive.
Qed.

End counting.

(** *** Facts about the descending sort *)

Section sorting.
Context {K : Type}.
Implicit Types (x : K * nat) (l : list (K * nat)).

Lemma insert_desc_Permutation x l : pd.insert_desc x l ≡ₚ x :: l.
Proof.
  induction l as [|y l IH]; simpl; [done|].
  case_bool_decide; [|done]. rewrite IH. apply Permutation_swap.
Qed.

Lemma sort_values_desc_Permutation l : pd.sort_values_desc l ≡ₚ l.
Proof.
  induction l as [|y l IH]; simpl; [done|].
  by rewrite insert_desc_Permutation, IH.
Qed.

Lemma insert_desc_sorted x l :
  StronglySorted (by_count_desc (K:=K)) l →
  StronglySorted (by_count_desc (K:=K)) (pd.insert_desc x l).
Proof.
  induction 1 as [|y l Hl IH Hy]; simpl.
  - repeat constructor.
  - case_bool_decide as Hlt.
    + constructor; [done|]. rewrite insert_desc_Permutation.
      constructor; [|done]. unfold by_count_desc. lia.
    + constructor; [by constructor|].
      assert (y.2 ≤ x.2) as Hyx by lia.
      constructor; [done|].
      eapply Forall_impl; [exact Hy|]. unfold by_count_desc. simpl. lia.
Qed.

Lemma sort_values_desc_sorted l :
  StronglySorted (by_count_desc (K:=K)) (pd.sort_values_desc l).
Proof.
  induction l as [|y l IH]; simpl; [constructor|].
  by apply insert_desc_sorted.
Qed.

Lemma StronglySorted_take {A} (R : relation A) n (k : list A) :
  StronglySorted R k → StronglySorted R (take n k).
Proof.
  intros Hs. revert n. induction Hs as [|y k Hk IH Hy]; intros [|n]; simpl;
    try constructor; [apply IH|by apply Forall_take].
Qed.

(** In a sorted table the count at an earlier position is at least the
    count at a later one. *)
Lemma StronglySorted_lookup_le l i j x y :
  StronglySorted (by_count_desc (K:=K)) l →
  i ≤ j → l !! i = Some x → l !! j = Some y → y.2 ≤ x.2.
Proof.
  intros Hs. revert i j. induction Hs as [|z l Hl IH Hz]; intros i j Hij Hi Hj.
  - done.
  - destruct i as [|i], j as [|j]; simpl in *; simplify_eq; try lia.
    + eapply Forall_forall in Hz; [exact Hz|]. by eapply list_elem_of_lookup_2.
    + eapply IH; [|done..]. lia.
Qed.

End sorting.

(** *** What [value_counts] returns *)

Section value_counts.
Context {A : Type} `{EqDecision A}.
Implicit Types (s : list (option A)) (k : option A) (c : nat).

Lemma hash_count_NoDup {K} `{EqDecision K} (vals : list K) :
  NoDup (pd.hash_count vals).*1.
Proof. apply foldl_incr_NoDup. constructor. Qed.

Lemma hash_count_elem {K} `{EqDecision K} (vals : list K) (k : K) c :
  (k, c) ∈ pd.hash_count vals ↔ c = pd.occurrences k vals ∧ 0 < c.
Proof.
  pose proof (foldl_incr_stored k vals []) as Hst. simpl in Hst.
  fold (pd.hash_count vals) in Hst.
  pose proof (foldl_incr_positive vals [] (Forall_nil_2 _)) as Hpos.
  fold (pd.hash_count vals) in Hpos.
  split.
  - intros Hin. rewrite <-Hst.
    rewrite (stored_elem k c _ (hash_count_NoDup vals) Hin). split; [done|].
    by eapply Forall_forall in Hpos; [|exact Hin].
  - intros [-> Hc]. rewrite <-Hst. apply stored_key; [done|]. by rewrite Hst.
Qed.

Lemma value_counts_Permutation s (dropna : bool) :
  pd.value_counts s dropna ≡ₚ
  pd.hash_count (if dropna then filter (λ v, is_Some v) s else s).
Proof. apply sort_values_desc_Permutation. Qed.

(** Each index value appears once. *)
Lemma value_counts_NoDup s dropna : NoDup (pd.value_counts s dropna).*1.
Proof. rewrite value_counts_Permutation. apply hash_count_NoDup. Qed.

(** With [dropna], the entries are exactly the non-NaN values that occur,
    each with its number of occurrences. *)
Lemma value_counts_elem s k c :
  (k, c) ∈ pd.value_counts s true ↔
  c = pd.occurrences k (filter (λ v, is_Some v) s) ∧ 0 < c.
Proof. rewrite value_counts_Permutation. apply hash_count_elem. Qed.

(** The counts add up to the number of non-NaN values. *)
Lemma value_counts_sum s :
  sum_list (pd.value_counts s true).*2 = length (filter (λ v, is_Some v) s).
Proof.
  rewrite value_counts_Permutation. unfold pd.hash_count.
  by rewrite foldl_incr_sum.
Qed.

Lemma value_counts_sorted s dropna :
  StronglySorted by_count_desc (pd.value_counts s dropna).
Proof. apply sort_values_desc_sorted. Qed.

Lemma occurrences_pos_elem {K} `{EqDecision K} (k : K) (vals : list K) :
  0 < pd.occurrences k vals ↔ k ∈ vals.
Proof.
  unfold pd.occurrences. split.
  - intros Hc. destruct (filter (λ v, v = k) vals) as [|v l] eqn:Hf;
      [simpl in Hc; lia|].
    assert (v ∈ filter (λ v, v = k) vals) as Hv
      by (rewrite Hf; apply elem_of_cons; by left).
    by apply list_elem_of_filter in Hv as [-> Hv].
  - intros Hin.
    assert (k ∈ filter (λ v, v = k) vals) as Hk
      by (by apply list_elem_of_filter).
    destruct (filter (λ v, v = k) vals); [by apply elem_of_nil in Hk|].
    simpl. lia.
Qed.

(** With [dropna], a key of the result is a non-NaN value of the column. *)
Lemma value_counts_key s k c :
  (k, c) ∈ pd.value_counts s true → is_Some k ∧ k ∈ s.
Proof.
  intros [-> Hc]%value_counts_elem.
  apply occurrences_pos_elem in Hc. by apply list_elem_of_filter in Hc.
Qed.

(** A non-NaN value of the column is a key of the result. *)
Lemma value_counts_complete s (a : A) :
  Some a ∈ s → ∃ c, (Some a, c) ∈ pd.value_counts s true.
Proof.
  intros Hin. eexists. apply value_counts_elem. split; [done|].
  apply occurrences_pos_elem, list_elem_of_filter. eauto.
Qed.

End value_counts.

(** *** Boolean indexing *)

Lemma boolean_index_fmap {A} (f : A → bool) (rows : list A) :
  pd.boolean_index rows (f <$> rows) = filter (λ r, f r) rows.
Proof.
  induction rows as [|r rows IH]; csimpl; [done|].
  rewrite filter_cons. destruct (f r); simpl; by rewrite IH.
Qed.

Example value_counts_drama :
  pd.value_counts [Some "Drama"; Some "Drama"; None; Some "Comedy"] true
  = [(Some "Drama", 2); (Some "Comedy", 1)].
Proof. reflexivity. Qed.

(** *** Running statements *)

Section running.
Import py.
Implicit Types (w : world) (h : list obj) (l : loc) (o : obj).

Lemma bind_run {A B} (m : M A) (k : A → M B) w a w' :
  m w = (Ok a, w') → bind m k w = k a w'.
Proof. unfold bind. by intros ->. Qed.

Lemma bind_raise {A B} (m : M A) (k : A → M B) w e w' :
  m w = (Raise e, w') → bind m k w = (Raise e, w').
Proof. unfold bind. by intros ->. Qed.

Lemma deref_run w l o : heap w !! l = Some o → deref l w = (Ok o, w).
Proof. unfold deref. by intros ->. Qed.

Lemma lookup_snoc_new h o : (h ++ [o]) !! length h = Some o.
Proof. by apply list_lookup_middle. Qed.

Lemma lookup_snoc_old h o l o' : h !! l = Some o' → (h ++ [o]) !! l = Some o'.
Proof. apply lookup_app_l_Some. Qed.

Lemma insert_snoc_new h o o' : <[length h := o']> (h ++ [o]) = h ++ [o'].
Proof.
  rewrite <-(Nat.add_0_r (length h)). by rewrite insert_app_r.
Qed.

(** Each method, run on objects of the kind the script gives it. *)

Lemma getitem_run w df t key vals :
  heap w !! df = Some (DataFrame t) → pd.str_column t key = Some vals →
  pandas.getitem df key w =
  (Ok (length (heap w)), set_heap (heap w ++ [SeriesStr key vals]) w).
Proof.
  intros Hdf Hcol. unfold pandas.getitem.
  rewrite (bind_run _ _ _ _ _ (deref_run _ _ _ Hdf)). by rewrite Hcol.
Qed.

Lemma notna_run w s label vals :
  heap w !! s = Some (SeriesStr label vals) →
  pandas.notna s w =
  (Ok (length (heap w)), set_heap (heap w ++ [SeriesBool (pd.notna <$> vals)]) w).
Proof.
  intros Hs. unfold pandas.notna.
  by rewrite (bind_run _ _ _ _ _ (deref_run _ _ _ Hs)).
Qed.

Lemma eq_run w s label vals scalar :
  heap w !! s = Some (SeriesStr label vals) →
  pandas.eq s scalar w =
  (Ok (length (heap w)),
   set_heap (heap w ++ [SeriesBool ((λ v, pd.eq_scalar v scalar) <$> vals)]) w).
Proof.
  intros Hs. unfold pandas.eq.
  by rewrite (bind_run _ _ _ _ _ (deref_run _ _ _ Hs)).
Qed.

Lemma getitem_mask_titles_run w df mask rows b :
  heap w !! df = Some (DataFrame (Titles rows)) →
  heap w !! mask = Some (SeriesBool b) →
  pandas.getitem_mask df mask w =
  (Ok (length (heap w)),
   set_heap (heap w ++ [DataFrame (Titles (pd.boolean_index rows b))]) w).
Proof.
  intros Hdf Hm. unfold pandas.getitem_mask.
  rewrite (bind_run _ _ _ _ _ (deref_run _ _ _ Hdf)).
  by rewrite (bind_run _ _ _ _ _ (deref_run _ _ _ Hm)).
Qed.

Lemma getitem_mask_credits_run w df mask rows b :
  heap w !! df = Some (DataFrame (Credits rows)) →
  heap w !! mask = Some (SeriesBool b) →
  pandas.getitem_mask df mask w =
  (Ok (length (heap w)),
   set_heap (heap w ++ [DataFrame (Credits (pd.boolean_index rows b))]) w).
Proof.
  intros Hdf Hm. unfold pandas.getitem_mask.
  rewrite (bind_run _ _ _ _ _ (deref_run _ _ _ Hdf)).
  by rewrite (bind_run _ _ _ _ _ (deref_run _ _ _ Hm)).
Qed.

Lemma getitem_list_run w df rows keys num :
  heap w !! df = Some (DataFrame (Titles rows)) →
  pd.project keys rows = Some num →
  pandas.getitem_list df keys w =
  (Ok (length (heap w)), set_heap (heap w ++ [DataFrameNum keys num]) w).
Proof.
  intros Hdf Hp. unfold pandas.getitem_list.
  rewrite (bind_run _ _ _ _ _ (deref_run _ _ _ Hdf)). by rewrite Hp.
Qed.

Lemma dropna_run w df cols rows :
  heap w !! df = Some (DataFrameNum cols rows) →
  pandas.dropna df w =
  (Ok (length (heap w)),
   set_heap (heap w ++ [DataFrameNum cols (pd.dropna_rows rows)]) w).
Proof.
  intros Hdf. unfold pandas.dropna.
  by rewrite (bind_run _ _ _ _ _ (deref_run _ _ _ Hdf)).
Qed.

Lemma corr_run w df cols rows :
  heap w !! df = Some (DataFrameNum cols rows) →
  pandas.corr df w =
  (Ok (length (heap w)),
   set_heap (heap w ++ [DataFrameCorr cols
     (pd.nancorr (length cols) 1 (pd.to_numpy rows))]) w).
Proof.
  intros Hdf. unfold pandas.corr.
  by rewrite (bind_run _ _ _ _ _ (deref_run _ _ _ Hdf)).
Qed.

Lemma value_counts_run w s label vals :
  heap w !! s = Some (SeriesStr label vals) →
  pandas.value_counts s w =
  (Ok (length (heap w)),
   set_heap (heap w ++ [SeriesCount label (pd.value_counts vals true)]) w).
Proof.
  intros Hs. unfold pandas.value_counts.
  by rewrite (bind_run _ _ _ _ _ (deref_run _ _ _ Hs)).
Qed.

Lemma head_counts_run w s label entries n :
  heap w !! s = Some (SeriesCount label entries) →
  pandas.head s n w =
  (Ok (length (heap w)),
   set_heap (heap w ++ [SeriesCount label (pd.head n entries)]) w).
Proof.
  intros Hs. unfold pandas.head.
  by rewrite (bind_run _ _ _ _ _ (deref_run _ _ _ Hs)).
Qed.

Lemma head_titles_run w df rows n :
  heap w !! df = Some (DataFrame (Titles rows)) →
  pandas.head df n w =
  (Ok (length (heap w)),
   set_heap (heap w ++ [DataFrame (Titles (pd.head n rows))]) w).
Proof.
  intros Hs. unfold pandas.head.
  by rewrite (bind_run _ _ _ _ _ (deref_run _ _ _ Hs)).
Qed.

Lemma reset_index_run w s label entries :
  heap w !! s = Some (SeriesCount label entries) →
  pandas.reset_index s w =
  (Ok (length (heap w)),
   set_heap (heap w ++ [DataFrameCount [label; "count"] entries]) w).
Proof.
  intros Hs. unfold pandas.reset_index.
  by rewrite (bind_run _ _ _ _ _ (deref_run _ _ _ Hs)).
Qed.

Lemma set_columns_run w df cols entries names :
  heap w !! df = Some (DataFrameCount cols entries) →
  length names = length cols →
  pandas.set_columns df names w =
  (Ok (), set_heap (<[df := DataFrameCount names entries]> (heap w)) w).
Proof.
  intros Hdf Hlen. unfold pandas.set_columns.
  rewrite (bind_run _ _ _ _ _ (deref_run _ _ _ Hdf)).
  by rewrite bool_decide_eq_true_2.
Qed.

Lemma shape_titles_run w df rows :
  heap w !! df = Some (DataFrame (Titles rows)) →
  pandas.shape df w = (Ok (length rows, 7), w).
Proof.
  intros Hdf. unfold pandas.shape.
  by rewrite (bind_run _ _ _ _ _ (deref_run _ _ _ Hdf)).
Qed.

Lemma dtypes_titles_run w df rows :
  heap w !! df = Some (DataFrame (Titles rows)) →
  pandas.dtypes df w = (Ok (pandas.dtypes_of rows), w).
Proof.
  intros Hdf. unfold pandas.dtypes.
  by rewrite (bind_run _ _ _ _ _ (deref_run _ _ _ Hdf)).
Qed.

Lemma bar_run w df cols entries x y title orientation :
  heap w !! df = Some (DataFrameCount cols entries) →
  x ∈ cols → y ∈ cols →
  px.bar df x y title orientation w =
  (Ok (length (heap w)),
   set_heap (heap w ++ [FigureObj
     (Figure (BarTrace cols entries x y orientation) title [] [])]) w).
Proof.
  intros Hdf Hx Hy. unfold px.bar.
  rewrite (bind_run _ _ _ _ _ (deref_run _ _ _ Hdf)).
  by rewrite bool_decide_eq_true_2.
Qed.

Lemma histogram_run w df rows nbins title :
  heap w !! df = Some (DataFrame (Titles rows)) →
  px.histogram df "release_year" nbins title w =
  (Ok (length (heap w)),
   set_heap (heap w ++ [FigureObj
     (Figure (HistogramTrace "release_year" nbins (release_year <$> rows))
             title [] [])]) w).
Proof.
  intros Hdf. unfold px.histogram.
  by rewrite (bind_run _ _ _ _ _ (deref_run _ _ _ Hdf)).
Qed.

Lemma scatter_run w df rows x y fx fy title opacity :
  heap w !! df = Some (DataFrame (Titles rows)) →
  pd.num_field x = Some fx → pd.num_field y = Some fy →
  px.scatter df x y title opacity w =
  (Ok (length (heap w)),
   set_heap (heap w ++ [FigureObj
     (Figure (ScatterTrace x y ((λ r, (fx r, fy r)) <$> rows) opacity)
             title [] [])]) w).
Proof.
  intros Hdf Hx Hy. unfold px.scatter.
  rewrite (bind_run _ _ _ _ _ (deref_run _ _ _ Hdf)). by rewrite Hx, Hy.
Qed.

Lemma imshow_run w img labels z text_auto scale title :
  heap w !! img = Some (DataFrameCorr labels z) →
  px.imshow img text_auto scale title w =
  (Ok (length (heap w)),
   set_heap (heap w ++ [FigureObj
     (Figure (ImageTrace labels z text_auto scale) title [] [])]) w).
Proof.
  intros Himg. unfold px.imshow.
  by rewrite (bind_run _ _ _ _ _ (deref_run _ _ _ Himg)).
Qed.

Lemma update_layout_run w fig f settings :
  heap w !! fig = Some (FigureObj f) →
  px.update_layout fig settings w =
  (Ok (), set_heap (<[fig := FigureObj
     (Figure (fig_trace f) (fig_title f) (fig_layout f ++ settings)
             (fig_xaxes f))]> (heap w)) w).
Proof.
  intros Hf. unfold px.update_layout.
  by rewrite (bind_run _ _ _ _ _ (deref_run _ _ _ Hf)).
Qed.

Lemma update_xaxes_run w fig f settings :
  heap w !! fig = Some (FigureObj f) →
  px.update_xaxes fig settings w =
  (Ok (), set_heap (<[fig := FigureObj
     (Figure (fig_trace f) (fig_title f) (fig_layout f)
             (fig_xaxes f ++ settings))]> (heap w)) w).
Proof.
  intros Hf. unfold px.update_xaxes.
  by rewrite (bind_run _ _ _ _ _ (deref_run _ _ _ Hf)).
Qed.

Lemma dataframe_run w df rows :
  heap w !! df = Some (DataFrame (Titles rows)) →
  st.dataframe df w = (Ok (), set_page (page w ++ [el_dataframe rows]) w).
Proof.
  intros Hdf. unfold st.dataframe.
  by rewrite (bind_run _ _ _ _ _ (deref_run _ _ _ Hdf)).
Qed.

Lemma plotly_chart_run w column fig f ucw :
  heap w !! fig = Some (FigureObj f) →
  st.plotly_chart column fig ucw w =
  (Ok (), set_page (page w ++ [el_plotly_chart column f ucw]) w).
Proof.
  intros Hf. unfold st.plotly_chart.
  by rewrite (bind_run _ _ _ _ _ (deref_run _ _ _ Hf)).
Qed.

End running.

(** *** Running the view branches *)

Ltac world_simpl :=
  unfold py.set_heap, py.set_page, py.set_cache, py.set_reads;
  cbn [py.heap py.page py.cache py.disk py.reads
       fig_trace fig_title fig_layout fig_xaxes].

Ltac heap_lookup :=
  world_simpl;
  repeat first [ eassumption | apply lookup_snoc_new | apply lookup_snoc_old ].

Ltac run_side :=
  solve [ heap_lookup | reflexivity
        | repeat first [ apply list_elem_of_here | apply list_elem_of_further ] ].

Ltac run_with lem :=
  erewrite bind_run; [| eapply lem; run_side];
  world_simpl; rewrite ?insert_snoc_new.

Ltac run_emit :=
  erewrite bind_run; [| reflexivity]; world_simpl.

Ltac run_last lem :=
  erewrite lem; [| run_side ..]; world_simpl;
  rewrite <-?app_assoc; reflexivity.


Section branches.
Import py.
Implicit Types (w : world) (df df_credits : loc).

Lemma dataset_overview_run w df rows :
  heap w !! df = Some (DataFrame (Titles rows)) →
  app.dataset_overview df w =
  (Ok (),
   World (heap w ++ views.objects "Dataset Overview" "" rows [])
         (page w ++ views.elements "Dataset Overview" "" rows [])
         (cache w) (disk w) (reads w)).
Proof.
  destruct w as [h p c d r]. cbn [heap page cache disk reads]. intros Hdf.
  unfold app.dataset_overview.
  run_emit.
  run_with shape_titles_run.
  run_emit.
  run_with head_titles_run.
  run_with dataframe_run.
  run_emit.
  run_with dtypes_titles_run.
  unfold st.write_dtypes, emit. world_simpl.
  rewrite <-?app_assoc. reflexivity.
Qed.

Lemma genre_analysis_run w df rows :
  heap w !! df = Some (DataFrame (Titles rows)) →
  app.genre_analysis df w =
  (Ok (),
   World (heap w ++ views.objects "Genre Analysis" "" rows [])
         (page w ++ views.elements "Genre Analysis" "" rows [])
         (cache w) (disk w) (reads w)).
Proof.
  destruct w as [h p c d r]. cbn [heap page cache disk reads]. intros Hdf.
  unfold app.genre_analysis.
  run_emit.
  run_with getitem_run.
  run_with notna_run.
  run_with getitem_mask_titles_run.
  run_with getitem_run.
  run_with value_counts_run.
  run_with reset_index_run.
  run_with set_columns_run.
  run_with bar_run.
  run_with update_layout_run.
  run_last plotly_chart_run.
Qed.

Lemma content_type_distribution_run w df rows :
  heap w !! df = Some (DataFrame (Titles rows)) →
  app.content_type_distribution df w =
  (Ok (),
   World (heap w ++ views.objects "Content Type Distribution" "" rows [])
         (page w ++ views.elements "Content Type Distribution" "" rows [])
         (cache w) (disk w) (reads w)).
Proof.
  destruct w as [h p c d r]. cbn [heap page cache disk reads]. intros Hdf.
  unfold app.content_type_distribution.
  run_emit.
  run_with getitem_run.
  run_with value_counts_run.
  run_with reset_index_run.
  run_with set_columns_run.
  run_with bar_run.
  run_with update_layout_run.
  run_last plotly_chart_run.
Qed.

Lemma release_year_analysis_run w df rows :
  heap w !! df = Some (DataFrame (Titles rows)) →
  app.release_year_analysis df w =
  (Ok (),
   World (heap w ++ views.objects "Release Year Analysis" "" rows [])
         (page w ++ views.elements "Release Year Analysis" "" rows [])
         (cache w) (disk w) (reads w)).
Proof.
  destruct w as [h p c d r]. cbn [heap page cache disk reads]. intros Hdf.
  unfold app.release_year_analysis.
  run_emit.
  run_with histogram_run.
  run_with update_layout_run.
  run_last plotly_chart_run.
Qed.

Lemma ratings_and_popularity_run w df rows :
  heap w !! df = Some (DataFrame (Titles rows)) →
  app.ratings_and_popularity df w =
  (Ok (),
   World (heap w ++ views.objects "Ratings & Popularity" "" rows [])
         (page w ++ views.elements "Ratings & Popularity" "" rows [])
         (cache w) (disk w) (reads w)).
Proof.
  destruct w as [h p c d r]. cbn [heap page cache disk reads]. intros Hdf.
  unfold app.ratings_and_popularity.
  run_emit.
  run_emit.
  run_with scatter_run.
  run_with update_xaxes_run.
  run_with update_layout_run.
  run_with plotly_chart_run.
  run_with scatter_run.
  run_with update_xaxes_run.
  run_with update_layout_run.
  run_last plotly_chart_run.
Qed.

Lemma project_selected rows :
  pd.project views.numeric_columns rows = Some (views.selected rows).
Proof. reflexivity. Qed.

Lemma correlation_analysis_run w df rows :
  heap w !! df = Some (DataFrame (Titles rows)) →
  app.correlation_analysis df w =
  (Ok (),
   World (heap w ++ views.objects "Correlation Analysis" "" rows [])
         (page w ++ views.elements "Correlation Analysis" "" rows [])
         (cache w) (disk w) (reads w)).
Proof.
  destruct w as [h p c d r]. cbn [heap page cache disk reads]. intros Hdf.
  unfold app.correlation_analysis.
  run_emit.
  erewrite bind_run;
    [| eapply getitem_list_run; [heap_lookup | apply project_selected]].
  world_simpl.
  run_with dropna_run.
  run_with corr_run.
  run_with imshow_run.
  run_with update_layout_run.
  run_last plotly_chart_run.
Qed.

Lemma actors_and_directors_run w df_credits choice credits :
  heap w !! df_credits = Some (DataFrame (Credits credits)) →
  app.actors_and_directors choice df_credits w =
  (Ok (),
   World (heap w ++ views.objects "Actors & Directors" choice [] credits)
         (page w ++ views.elements "Actors & Directors" choice [] credits)
         (cache w) (disk w) (reads w)).
Proof.
  destruct w as [h p c d r]. cbn [heap page cache disk reads]. intros Hdf.
  unfold app.actors_and_directors.
  run_emit.
  run_emit.
  run_with getitem_run.
  run_with eq_run.
  run_with getitem_mask_credits_run.
  run_with getitem_run.
  run_with value_counts_run.
  run_with head_counts_run.
  run_with reset_index_run.
  run_with set_columns_run.
  run_with bar_run.
  run_with update_layout_run.
  run_last plotly_chart_run.
Qed.

Lemma conclusion_run w :
  app.conclusion w =
  (Ok (),
   World (heap w ++ views.objects "Conclusion" "" [] [])
         (page w ++ views.elements "Conclusion" "" [] [])
         (cache w) (disk w) (reads w)).
Proof.
  destruct w as [h p c d r]. cbn [heap page cache disk reads].
  unfold app.conclusion. run_emit.
  unfold st.markdown, emit. world_simpl.
  rewrite <-?app_assoc, app_nil_r. reflexivity.
Qed.

End branches.

(** *** The dispatch *)

Section dispatch.
Import py.
Implicit Types (w : world) (df df_credits : loc).

(** Whatever the selection, the branch taken returns normally, appends
    the objects of [views.objects] to the heap and the elements of
    [views.elements] to the page, and changes nothing else. *)
Lemma view_run w df df_credits section choice titles credits :
  heap w !! df = Some (DataFrame (Titles titles)) →
  heap w !! df_credits = Some (DataFrame (Credits credits)) →
  app.view section choice df df_credits w =
  (Ok (),
   World (heap w ++ views.objects section choice titles credits)
         (page w ++ views.elements section choice titles credits)
         (cache w) (disk w) (reads w)).
Proof.
  intros Hdf Hdfc. unfold app.view, views.objects, views.elements.
  repeat case_bool_decide; subst.
  - by apply dataset_overview_run.
  - by apply genre_analysis_run.
  - by apply content_type_distribution_run.
  - by apply release_year_analysis_run.
  - by apply ratings_and_popularity_run.
  - by apply correlation_analysis_run.
  - by apply actors_and_directors_run.
  - by apply conclusion_run.
  - destruct w. unfold ret. cbn [heap page cache disk reads].
    by rewrite !app_nil_r.
Qed.

End dispatch.

(** *** The aggregates as filters and counts over the rows *)

Section aggregates.
Implicit Types (titles : list title) (credits : list credit).

(** Counting the non-NaN values of a column is counting rows. *)
Lemma length_filter_is_Some_fmap {A B} (f : A → option B) (l : list A) :
  length (filter (λ v, is_Some v) (f <$> l)) =
  length (filter (λ r, is_Some (f r)) l).
Proof.
  induction l as [|r l IH]; csimpl; [done|].
  rewrite !filter_cons. repeat case_decide; simpl; try done; by rewrite IH.
Qed.

Lemma occurrences_column {A B} `{EqDecision B} (f : A → option B)
    (l : list A) (b : B) :
  pd.occurrences (Some b) (filter (λ v, is_Some v) (f <$> l)) =
  length (filter (λ r, f r = Some b) l).
Proof.
  unfold pd.occurrences.
  induction l as [|r l IH]; csimpl; [done|].
  rewrite !filter_cons. destruct (f r) as [b'|] eqn:Hf.
  - rewrite decide_True by eauto. rewrite filter_cons.
    repeat case_decide; simplify_eq; simpl; try done; by rewrite IH.
  - rewrite decide_False by (by intros [? ?]).
    rewrite decide_False by done. apply IH.
Qed.

Lemma genre_df_filter titles :
  views.genre_df titles = filter (λ r, is_Some (primary_genre r)) titles.
Proof.
  unfold views.genre_df. rewrite <-list_fmap_compose, boolean_index_fmap.
  apply list_filter_iff. intros r. simpl.
  destruct (primary_genre r); simpl; split; try done; eauto.
Qed.

Lemma filtered_df_filter choice credits :
  views.filtered_df choice credits =
  filter (λ r, role r = Some choice) credits.
Proof.
  unfold views.filtered_df. rewrite <-list_fmap_compose, boolean_index_fmap.
  apply list_filter_iff. intros r. simpl. unfold pd.eq_scalar.
  destruct (role r); simpl; [|done].
  rewrite bool_decide_spec. split; congruence.
Qed.

(** Rows that survive the filter keep their place and content: the kept
    rows are rows of the table with the selected role. *)
Lemma filtered_df_elem choice credits r :
  r ∈ views.filtered_df choice credits ↔ r ∈ credits ∧ role r = Some choice.
Proof. rewrite filtered_df_filter, list_elem_of_filter. tauto. Qed.



Lemma type_counts_sum titles :
  sum_list (views.type_counts titles).*2 =
  length (filter (λ r, is_Some (type r)) titles).
Proof.
  unfold views.type_counts.
  by rewrite value_counts_sum, length_filter_is_Some_fmap.
Qed.

Lemma type_counts_elem titles k c :
  (k, c) ∈ views.type_counts titles →
  ∃ t, k = Some t ∧ 0 < c ∧ c = length (filter (λ r, type r = Some t) titles).
Proof.
  unfold views.type_counts. intros Hin.
  destruct (value_counts_key _ _ _ Hin) as [[t ->] _]. exists t.
  apply value_counts_elem in Hin as [-> Hc]. split_and!; [done..|].
  by rewrite occurrences_column.
Qed.

Lemma counts_length choice credits :
  length (views.counts choice credits) ≤ 20.
Proof. unfold views.counts, pd.head. rewrite length_take. lia. Qed.

Lemma counts_elem choice credits k c :
  (k, c) ∈ views.counts choice credits →
  ∃ n, k = Some n ∧ 0 < c ∧
       c = length (filter (λ r, role r = Some choice ∧ name r = Some n) credits).
Proof.
  unfold views.counts, pd.head. intros Hin%subseteq_take.
  destruct (value_counts_key _ _ _ Hin) as [[n ->] _]. exists n.
  apply value_counts_elem in Hin as [-> Hc]. split_and!; [done..|].
  rewrite occurrences_column, filtered_df_filter.
  rewrite list_filter_filter. f_equal. apply list_filter_iff.
  intros r. tauto.
Qed.

Lemma counts_sorted choice credits :
  StronglySorted by_count_desc (views.counts choice credits).
Proof. apply StronglySorted_take, value_counts_sorted. Qed.

End aggregates.

(** ** The claims *)

Section claims_counts.
Import py.
Implicit Types (w : world) (df df_credits : loc).

(** C1.  Actors & Directors: for every credits table and every selected
    role the branch returns normally and draws one bar chart; the frame it
    filters keeps only rows of the table whose role is the selected one;
    the chart has at most 20 entries; every entry is a name with the number
    of kept rows bearing that name; and the counts never increase along the
    chart. *)
Theorem actors_and_directors_top_20 w df_credits choice credits :
  heap w !! df_credits = Some (DataFrame (Credits credits)) →
  ∃ w',
    app.actors_and_directors choice df_credits w = (Ok (), w') ∧
    page w' = page w ++
      [el_header "🎥 Actor & Director Participation";
       el_selectbox "Select Role" ["ACTOR"; "DIRECTOR"];
       el_plotly_chart None (views.actors_figure choice credits) true] ∧
    heap w' !! (length (heap w) + 2) =
      Some (DataFrame (Credits (views.filtered_df choice credits))) ∧
    (∀ r, r ∈ views.filtered_df choice credits →
          r ∈ credits ∧ role r = Some choice) ∧
    length (views.counts choice credits) ≤ 20 ∧
    (∀ k c, (k, c) ∈ views.counts choice credits →
       ∃ n, k = Some n ∧ 0 < c ∧
            c = length (filter (λ r, role r = Some choice ∧ name r = Some n)
                               credits)) ∧
    (∀ i j x y, i ≤ j →
       views.counts choice credits !! i = Some x →
       views.counts choice credits !! j = Some y → y.2 ≤ x.2).
Proof.
  intros Hdf. eexists. split; [by apply actors_and_directors_run|].
  cbn [page heap]. split_and!.
  - done.
  - rewrite lookup_app_r by lia.
    by replace (length (heap w) + 2 - length (heap w)) with 2 by lia.
  - intros r. apply filtered_df_elem.
  - apply counts_length.
  - apply counts_elem.
  - intros i j x y. apply StronglySorted_lookup_le, counts_sorted.
Qed.


(** C9.  Content Type Distribution: for every titles table the branch
    returns normally and draws one bar chart; no key of the chart is NaN,
    each key comes with the number of rows of that type, and the counts add
    up to the number of rows that have a type, which is at most the number
    of rows. *)
Theorem content_type_counts w df titles :
  heap w !! df = Some (DataFrame (Titles titles)) →
  ∃ w',
    app.content_type_distribution df w = (Ok (), w') ∧
    page w' = page w ++
      [el_header "🎬 Movies vs TV Shows";
       el_plotly_chart None (views.type_figure titles) true] ∧
    (∀ k c, (k, c) ∈ views.type_counts titles →
       k ≠ None ∧
       ∃ t, k = Some t ∧ 0 < c ∧
            c = length (filter (λ r, type r = Some t) titles)) ∧
    sum_list (views.type_counts titles).*2 =
      length (filter (λ r, is_Some (type r)) titles) ∧
    sum_list (views.type_counts titles).*2 ≤ length titles.
Proof.
  intros Hdf. eexists. split; [by apply content_type_distribution_run|].
  cbn [page]. split_and!.
  - done.
  - intros k c Hin. destruct (type_counts_elem _ _ _ Hin) as (t & -> & ?).
    split; [done|]. eauto.
  - apply type_counts_sum.
  - rewrite type_counts_sum. apply length_filter.
Qed.

(** C7.  Actors & Directors when no row has the selected role: the branch
    returns normally and the chart it draws has no entry. *)
Theorem actors_and_directors_empty w df_credits choice credits :
  heap w !! df_credits = Some (DataFrame (Credits credits)) →
  (∀ r, r ∈ credits → role r ≠ Some choice) →
  ∃ w',
    app.actors_and_directors choice df_credits w = (Ok (), w') ∧
    views.filtered_df choice credits = [] ∧
    page w' = page w ++
      [el_header "🎥 Actor & Director Participation";
       el_selectbox "Select Role" ["ACTOR"; "DIRECTOR"];
       el_plotly_chart None
         (Figure (BarTrace ["Name"; "Count"] [] "Count" "Name" (Some "h"))
                 ("Top 20 " +:+ choice +:+ "s by Participation Volume")
                 [("title_x", "0.5"); ("yaxis.autorange", "reversed")] [])
         true].
Proof.
  intros Hdf Hnone.
  assert (views.filtered_df choice credits = []) as Hempty.
  { apply elem_of_nil_inv. intros r [Hr Hrole]%filtered_df_elem.
    by apply (Hnone r). }
  eexists. split; [by apply actors_and_directors_run|].
  split; [done|]. cbn [page].
  unfold views.elements, views.actors_figure, views.counts. simpl.
  by rewrite Hempty.
Qed.

End claims_counts.

(** *** The scenario: one name three times, 25 names once *)

Section scenario.
Import py.
Implicit Types (w : world) (df_credits : loc).

Lemma occurrences_Permutation {K} `{EqDecision K} (k : K) (l1 l2 : list K) :
  l1 ≡ₚ l2 → pd.occurrences k l1 = pd.occurrences k l2.
Proof. unfold pd.occurrences. by intros ->. Qed.

Lemma occurrences_Some_fmap {A} `{EqDecision A} (n : A) (l : list A) :
  pd.occurrences (Some n) (filter (λ v, is_Some v) (Some <$> l)) =
  pd.occurrences n l.
Proof.
  rewrite occurrences_column. unfold pd.occurrences. f_equal.
  apply list_filter_iff. intros r. split; congruence.
Qed.

Lemma occurrences_None {A} `{EqDecision A} (l : list (option A)) :
  pd.occurrences None (filter (λ v, is_Some v) l) = 0.
Proof.
  destruct (decide (0 < pd.occurrences None (filter (λ v, is_Some v) l)))
    as [Hpos|]; [|lia].
  apply occurrences_pos_elem, list_elem_of_filter in Hpos as [[? ?] _]. done.
Qed.

Lemma occurrences_NoDup {K} `{EqDecision K} (k : K) (l : list K) :
  NoDup l → pd.occurrences k l = if bool_decide (k ∈ l) then 1 else 0.
Proof.
  induction 1 as [|x l Hx Hl IH].
  - by rewrite bool_decide_eq_false_2 by apply not_elem_of_nil.
  - rewrite occurrences_cons, IH. destruct (decide (x = k)) as [->|Hne].
    + rewrite bool_decide_eq_true_2 by done.
      rewrite (bool_decide_eq_false_2 (k ∈ l)) by done.
      by rewrite bool_decide_eq_true_2 by apply list_elem_of_here.
    + rewrite (bool_decide_eq_false_2 (x = k)) by done. simpl.
      rewrite (bool_decide_ext (k ∈ x :: l) (k ∈ l)); [done|].
      rewrite elem_of_cons. split; [intros [?|?]; [congruence|done]|auto].
Qed.

Lemma filter_Forall_id {A} (P : A → Prop) `{∀ x, Decision (P x)} (l : list A) :
  Forall P l → filter P l = l.
Proof.
  induction 1 as [|x l Hx Hl IH]; [done|].
  by rewrite filter_cons_True, IH.
Qed.

Context (names : list (option string)) (star : string) (singles : list string).
Hypothesis Hnames : names ≡ₚ Some <$> (star :: star :: star :: singles).
Hypothesis Hdistinct : NoDup (star :: singles).

Lemma scenario_entry k c :
  (k, c) ∈ pd.value_counts names true ↔
  (k = Some star ∧ c = 3) ∨ (∃ n, n ∈ singles ∧ k = Some n ∧ c = 1).
Proof.
  apply NoDup_cons in Hdistinct as [Hstar Hsingles].
  rewrite value_counts_elem.
  rewrite (occurrences_Permutation k _
             (filter (λ v, is_Some v) (Some <$> star :: star :: star :: singles)))
    by (by rewrite Hnames).
  destruct k as [n|].
  - rewrite occurrences_Some_fmap, !occurrences_cons.
    rewrite (occurrences_NoDup n singles Hsingles).
    destruct (decide (n = star)) as [->|Hne].
    + rewrite !bool_decide_eq_true_2 by done.
      rewrite bool_decide_eq_false_2 by done.
      split; [intros [-> _]; by left|].
      intros [[_ ->]|(n & Hn & [= <-] & _)]; [split; lia|done].
    + rewrite !(bool_decide_eq_false_2 (star = n)) by done.
      case_bool_decide as Hin; simpl.
      * split; [intros [-> _]; right; eauto|].
        intros [[[= ->] _]|(n' & _ & _ & ->)]; [done|split; lia].
      * split; [lia|].
        intros [[[= ->] _]|(n' & Hn' & [= ->] & _)]; done.
  - rewrite occurrences_None. split; [lia|].
    intros [[? _]|(? & _ & ? & _)]; done.
Qed.

Lemma scenario_length : length (pd.value_counts names true) = S (length singles).
Proof.
  rewrite <-(length_fmap fst).
  assert ((pd.value_counts names true).*1 ≡ₚ Some <$> (star :: singles)) as ->.
  { apply NoDup_Permutation.
    - apply value_counts_NoDup.
    - by apply (NoDup_fmap_2 _).
    - intros k. rewrite list_elem_of_fmap. split.
      + intros ([k' c] & -> & Hin). cbn [fst].
        apply scenario_entry in Hin as [[-> _]|(n & Hn & -> & _)];
          apply list_elem_of_fmap_2, elem_of_cons; auto.
      + intros (n & -> & Hn)%list_elem_of_fmap.
        apply elem_of_cons in Hn as [->|Hn].
        * exists (Some star, 3). split; [done|]. apply scenario_entry. auto.
        * exists (Some n, 1). split; [done|]. apply scenario_entry. eauto. }
  by rewrite length_fmap.
Qed.

Lemma scenario_first :
  ∃ tail, pd.value_counts names true = (Some star, 3) :: tail.
Proof.
  assert ((Some star, 3) ∈ pd.value_counts names true) as Hstar
    by (apply scenario_entry; auto).
  pose proof (value_counts_sorted names true) as Hsorted.
  destruct (pd.value_counts names true) as [|[k0 c0] tail] eqn:Hvc;
    [by apply elem_of_nil in Hstar|].
  exists tail. f_equal.
  assert ((k0, c0) ∈ pd.value_counts names true) as H0
    by (rewrite Hvc; apply list_elem_of_here).
  apply list_elem_of_lookup_1 in Hstar as [j Hj].
  assert (3 ≤ c0) as Hle.
  { apply (StronglySorted_lookup_le _ 0 j (k0, c0) (Some star, 3) Hsorted);
      [lia|done|done]. }
  apply scenario_entry in H0 as [[-> ->]|(n & _ & _ & ->)]; [done|lia].
Qed.

End scenario.

Section claims_scenario.
Import py.
Implicit Types (w : world) (df_credits : loc).

(** C8.  A credits table in which every row is an actor's, one name occurs
    three times and 25 other, distinct names occur once each: selecting
    "ACTOR" draws a chart of exactly 20 entries, the first being the name
    with count 3, the other 19 being distinct once-occurring names with
    count 1. *)
Theorem actors_top_20_scenario w df_credits credits star singles :
  heap w !! df_credits = Some (DataFrame (Credits credits)) →
  Forall (λ r, role r = Some "ACTOR") credits →
  name <$> credits ≡ₚ Some <$> (star :: star :: star :: singles) →
  NoDup (star :: singles) →
  length singles = 25 →
  ∃ w' rest,
    app.actors_and_directors "ACTOR" df_credits w = (Ok (), w') ∧
    page w' = page w ++
      [el_header "🎥 Actor & Director Participation";
       el_selectbox "Select Role" ["ACTOR"; "DIRECTOR"];
       el_plotly_chart None (views.actors_figure "ACTOR" credits) true] ∧
    views.counts "ACTOR" credits = (Some star, 3) :: rest ∧
    length ((Some star, 3) :: rest) = 20 ∧
    NoDup rest.*1 ∧
    (∀ e, e ∈ rest → ∃ n, n ∈ singles ∧ e = (Some n, 1)).
Proof.
  intros Hdf Hrole Hnames Hdistinct Hlen.
  assert (views.filtered_df "ACTOR" credits = credits) as Hall
    by (rewrite filtered_df_filter; by apply filter_Forall_id).
  destruct (scenario_first _ _ _ Hnames Hdistinct) as [tail Hvc].
  pose proof (scenario_length _ _ _ Hnames Hdistinct) as Hvclen.
  pose proof (value_counts_NoDup (name <$> credits) true) as Hnd.
  rewrite Hvc in Hvclen, Hnd. simpl in Hvclen. csimpl in Hnd.
  apply NoDup_cons in Hnd as [Hstar Hnd].
  exists (World (heap w ++ views.objects "Actors & Directors" "ACTOR" [] credits)
                (page w ++ views.elements "Actors & Directors" "ACTOR" [] credits)
                (cache w) (disk w) (reads w)), (take 19 tail).
  split_and!.
  - by apply actors_and_directors_run.
  - done.
  - unfold views.counts, pd.head. by rewrite Hall, Hvc.
  - simpl. rewrite length_take. lia.
  - rewrite fmap_take. eapply sublist_NoDup; [exact Hnd|apply sublist_take].
  - intros [k c] Hin%subseteq_take.
    assert ((k, c) ∈ pd.value_counts (name <$> credits) true) as Hvcin
      by (rewrite Hvc; by apply list_elem_of_further).
    apply (scenario_entry _ _ _ Hnames Hdistinct) in Hvcin
      as [[-> ->]|(n & Hn & -> & ->)]; [|eauto].
    exfalso. apply Hstar. by apply (list_elem_of_fmap_2 fst _ (Some star, 3)).
Qed.

End claims_scenario.

(** *** The loader *)

Section loader.
Import py.
Implicit Types (w : world).

Lemma read_csv_run w path t :
  disk w path = Csv t →
  pandas.read_csv path w =
  (Ok (length (heap w)),
   World (heap w ++ [DataFrame t]) (page w) (cache w) (disk w)
         (reads w ++ [path])).
Proof. unfold pandas.read_csv. cbn. by intros ->. Qed.

Lemma read_csv_missing w path :
  disk w path = Missing →
  pandas.read_csv path w =
  (Raise (FileNotFoundError path), set_reads (reads w ++ [path]) w).
Proof. unfold pandas.read_csv. cbn. by intros ->. Qed.

Lemma read_csv_malformed w path :
  disk w path = Malformed →
  pandas.read_csv path w =
  (Raise (ParserError path), set_reads (reads w ++ [path]) w).
Proof. unfold pandas.read_csv. cbn. by intros ->. Qed.

(** Both files well formed: both are read, once each, in order. *)
Lemma load_data_run w t c :
  disk w "data/titles.csv" = Csv t →
  disk w "data/credits.csv" = Csv c →
  app.load_data w =
  (Ok (length (heap w), S (length (heap w))),
   World (heap w ++ [DataFrame t; DataFrame c]) (page w) (cache w) (disk w)
         (reads w ++ ["data/titles.csv"; "data/credits.csv"])).
Proof.
  intros Ht Hc. unfold app.load_data.
  rewrite (bind_run _ _ _ _ _ (read_csv_run _ _ _ Ht)).
  erewrite bind_run; [|by apply read_csv_run].
  unfold ret. cbn [heap page cache disk reads].
  rewrite length_app, <-!app_assoc. simpl. do 3 f_equal. lia.
Qed.

(** A file missing or malformed: the exception of [app.load_error], no
    frame returned, nothing rendered, nothing cached, each file read at
    most once. *)
Lemma load_data_raise w e :
  app.load_error (disk w) = Some e →
  ∃ w', app.load_data w = (Raise e, w') ∧
        page w' = page w ∧ cache w' = cache w ∧ disk w' = disk w ∧
        (reads w' = reads w ++ ["data/titles.csv"] ∨
         reads w' = reads w ++ ["data/titles.csv"; "data/credits.csv"]).
Proof.
  unfold app.load_error, app.load_data. intros He.
  destruct (disk w "data/titles.csv") as [| |t] eqn:Ht.
  - injection He as <-. eexists. split.
    + apply bind_raise. by apply read_csv_missing.
    + cbn. auto.
  - injection He as <-. eexists. split.
    + apply bind_raise. by apply read_csv_malformed.
    + cbn. auto.
  - rewrite (bind_run _ _ _ _ _ (read_csv_run _ _ _ Ht)).
    destruct (disk w "data/credits.csv") as [| |c] eqn:Hc; [| |done].
    + injection He as <-. eexists. split.
      * apply bind_raise. by apply read_csv_missing.
      * cbn. rewrite <-app_assoc. auto.
    + injection He as <-. eexists. split.
      * apply bind_raise. by apply read_csv_malformed.
      * cbn. rewrite <-app_assoc. auto.
Qed.

Lemma load_error_None d :
  app.load_error d = None →
  ∃ t c, d "data/titles.csv" = Csv t ∧ d "data/credits.csv" = Csv c.
Proof.
  unfold app.load_error.
  destruct (d "data/titles.csv"); [done..|].
  destruct (d "data/credits.csv"); [done..|]. eauto.
Qed.

(** A cache miss with both files well formed. *)
Lemma cached_load_miss w t c :
  cache w = None →
  disk w "data/titles.csv" = Csv t →
  disk w "data/credits.csv" = Csv c →
  app.cached_load_data w =
  (Ok (length (heap w), S (length (heap w))),
   World (heap w ++ [DataFrame t; DataFrame c]) (page w) (Some (t, c)) (disk w)
         (reads w ++ ["data/titles.csv"; "data/credits.csv"])).
Proof.
  intros Hcache Ht Hc. unfold app.cached_load_data, st.cache_data.
  rewrite Hcache, (load_data_run _ _ _ Ht Hc). cbn [heap].
  rewrite (lookup_app_r _ _ (length (heap w))) by lia.
  rewrite (lookup_app_r _ _ (S (length (heap w)))) by lia.
  rewrite Nat.sub_diag.
  by replace (S (length (heap w)) - length (heap w)) with 1 by lia.
Qed.

(** A cache hit: no file is read; fresh copies of the snapshot. *)
Lemma cached_load_hit w t c :
  cache w = Some (t, c) →
  app.cached_load_data w =
  (Ok (length (heap w), S (length (heap w))),
   World (heap w ++ [DataFrame t; DataFrame c]) (page w) (cache w) (disk w)
         (reads w)).
Proof.
  destruct w as [h p ca d r]. cbn [heap page cache disk reads].
  intros ->. unfold app.cached_load_data, st.cache_data, bind, alloc, ret.
  unfold set_heap. cbn [heap page cache disk reads].
  rewrite length_app, <-app_assoc. simpl. do 3 f_equal. lia.
Qed.

Lemma cached_load_miss_raise w e :
  cache w = None →
  app.load_error (disk w) = Some e →
  ∃ w', app.cached_load_data w = (Raise e, w') ∧
        page w' = page w ∧ cache w' = None ∧
        (reads w' = reads w ++ ["data/titles.csv"] ∨
         reads w' = reads w ++ ["data/titles.csv"; "data/credits.csv"]).
Proof.
  intros Hcache He.
  destruct (load_data_raise w e He) as (w' & Hrun & Hp & Hc & _ & Hr).
  exists w'. unfold app.cached_load_data, st.cache_data.
  rewrite Hcache, Hrun. split_and!; [done|done|congruence|done].
Qed.

Lemma loaded_tables_hit w t c :
  cache w = Some (t, c) →
  app.loaded_tables (app.cached_load_data w) = Ok (t, c).
Proof.
  intros Hcache. rewrite (cached_load_hit _ _ _ Hcache).
  unfold app.loaded_tables. cbn [heap].
  rewrite (lookup_app_r _ _ (length (heap w))) by lia.
  rewrite (lookup_app_r _ _ (S (length (heap w)))) by lia.
  rewrite Nat.sub_diag.
  by replace (S (length (heap w)) - length (heap w)) with 1 by lia.
Qed.

Lemma later_loads_hit env w t c :
  cache w = Some (t, c) →
  (app.later_loads env w).1 = replicate (length env) (Ok (t, c)) ∧
  cache (app.later_loads env w).2 = cache w ∧
  reads (app.later_loads env w).2 = reads w.
Proof.
  revert w. induction env as [|[[d h] p] env IH]; intros w Hcache; [done|].
  cbn [app.later_loads fst snd length replicate].
  assert (cache (app.between_runs d h p w) = Some (t, c)) as Hb by done.
  rewrite (loaded_tables_hit _ _ _ Hb).
  rewrite (cached_load_hit _ _ _ Hb). cbn [snd].
  edestruct IH as (-> & -> & ->); [|done]. done.
Qed.

End loader.

Section claims_loader.
Import py.
Implicit Types (w : world).

(** C4.  After a first invocation of the memoised loader that found the
    cache empty and returned, every later invocation returns tables equal
    in content to those of the first one and reads no file, whatever
    happened to the files, the heap and the page in between. *)
Theorem cached_load_idempotent w0 a b w1 :
  cache w0 = None →
  app.cached_load_data w0 = (Ok (a, b), w1) →
  ∃ t c,
    app.loaded_tables (Ok (a, b), w1) = Ok (t, c) ∧
    ∀ env,
      (app.later_loads env w1).1 = replicate (length env) (Ok (t, c)) ∧
      reads (app.later_loads env w1).2 = reads w1.
Proof.
  intros Hcache. unfold app.cached_load_data, st.cache_data.
  rewrite Hcache.
  destruct (app.load_data w0) as [[[a' b']|e] w'] eqn:Hload; [|done].
  destruct (heap w' !! a') as [[t| | | | | | |]|] eqn:Ha; try done.
  destruct (heap w' !! b') as [[c| | | | | | |]|] eqn:Hb; try done.
  intros [= -> -> <-]. exists t, c. split.
  - unfold app.loaded_tables, set_cache. cbn [heap]. by rewrite Ha, Hb.
  - intros env.
    destruct (later_loads_hit env (set_cache (Some (t, c)) w') t c)
      as (? & _ & ?); done.
Qed.

(** C5, as the code has it.  When the cache of the memoised loader is
    empty, so that the call reads the files, and a file is missing or
    malformed, the loader raises the file-not-found or parse error of the
    first bad file; nothing is rendered, nothing is cached, and each file is
    read at most once.  And in any state, when the loader returns it returns
    two frames, which are then the cached ones. *)
Theorem load_data_all_or_nothing w :
  (cache w = None →
   disk w "data/titles.csv" = Missing ∨ disk w "data/titles.csv" = Malformed ∨
   disk w "data/credits.csv" = Missing ∨ disk w "data/credits.csv" = Malformed →
   ∃ e w',
     app.cached_load_data w = (Raise e, w') ∧
     app.load_error (disk w) = Some e ∧
     (∃ path, (e = FileNotFoundError path ∧ disk w path = Missing) ∨
              (e = ParserError path ∧ disk w path = Malformed)) ∧
     page w' = page w ∧ cache w' = None ∧
     (reads w' = reads w ++ ["data/titles.csv"] ∨
      reads w' = reads w ++ ["data/titles.csv"; "data/credits.csv"])) ∧
  (∀ a b w',
     app.cached_load_data w = (Ok (a, b), w') →
     ∃ t c, heap w' !! a = Some (DataFrame t) ∧
            heap w' !! b = Some (DataFrame c) ∧
            cache w' = Some (t, c)).
Proof.
  split.
  - intros Hcache Hbad.
    assert (∃ e, app.load_error (disk w) = Some e ∧
              ∃ path, (e = FileNotFoundError path ∧ disk w path = Missing) ∨
                      (e = ParserError path ∧ disk w path = Malformed))
      as (e & He & Hkind).
    { unfold app.load_error.
      destruct (disk w "data/titles.csv") eqn:Ht;
        [eexists; split; [done|]; exists "data/titles.csv"; auto..|].
      destruct (disk w "data/credits.csv") eqn:Hc;
        [eexists; split; [done|]; exists "data/credits.csv"; auto..|].
      destruct Hbad as [?|[?|[?|?]]]; done. }
    destruct (cached_load_miss_raise w e Hcache He) as (w' & ? & ? & ? & ?).
    exists e, w'. split_and!; done.
  - intros a b w'. destruct (cache w) as [[t c]|] eqn:Hcache.
    + rewrite (cached_load_hit _ _ _ Hcache). intros [= <- <- <-].
      exists t, c. cbn [heap cache].
      rewrite (lookup_app_r _ _ (length (heap w))) by lia.
      rewrite (lookup_app_r _ _ (S (length (heap w)))) by lia.
      rewrite Nat.sub_diag.
      by replace (S (length (heap w)) - length (heap w)) with 1 by lia.
    + unfold app.cached_load_data, st.cache_data. rewrite Hcache.
      destruct (app.load_data w) as [[[a' b']|e] w''] eqn:Hload; [|done].
      destruct (heap w'' !! a') as [[t| | | | | | |]|] eqn:Ha; try done.
      destruct (heap w'' !! b') as [[c| | | | | | |]|] eqn:Hb; try done.
      intros [= -> -> <-]. exists t, c. unfold set_cache. cbn [heap cache].
      by rewrite Ha, Hb.
Qed.

(** C5 as stated fails: with the tables in the cache and both files
    deleted, the loader does not fail; it returns the cached tables and opens
    no file. *)
Lemma cached_load_ignores_missing_files :
  disk sample.loaded_then_deleted "data/titles.csv" = Missing ∧
  disk sample.loaded_then_deleted "data/credits.csv" = Missing ∧
  app.loaded_tables (app.cached_load_data sample.loaded_then_deleted)
    = Ok (Titles sample.titles, Credits sample.credits) ∧
  reads (app.cached_load_data sample.loaded_then_deleted).2
    = reads sample.loaded_then_deleted ∧
  ¬ ∃ e w', app.cached_load_data sample.loaded_then_deleted = (Raise e, w').
Proof.
  split_and!; try reflexivity.
  intros (e & w' & Hrun).
  by rewrite (cached_load_hit sample.loaded_then_deleted
                (Titles sample.titles) (Credits sample.credits) eq_refl) in Hrun.
Qed.

End claims_loader.

Section claims_dispatch.
Import py.
Implicit Types (w : world) (df df_credits : loc).

(** C6.  Whatever the selection, with the two loaded tables on the heap
    the view branch returns normally and leaves every object that existed
    before it unchanged, the two loaded tables in particular, and the cache
    as well: what it filters, counts and renames are objects it created. *)
Theorem view_leaves_tables_unchanged w df df_credits section choice
    titles credits :
  heap w !! df = Some (DataFrame (Titles titles)) →
  heap w !! df_credits = Some (DataFrame (Credits credits)) →
  ∃ w',
    app.view section choice df df_credits w = (Ok (), w') ∧
    heap w' !! df = Some (DataFrame (Titles titles)) ∧
    heap w' !! df_credits = Some (DataFrame (Credits credits)) ∧
    (∀ l o, heap w !! l = Some o → heap w' !! l = Some o) ∧
    cache w' = cache w.
Proof.
  intros Hdf Hdfc. eexists. split; [by eapply view_run|].
  cbn [heap cache]. split_and!; [| | |done];
    eauto using lookup_app_l_Some.
Qed.

(** C10.  Two executions of the dispatch with the same selection, on
    tables of the same content, render the same elements and build the
    same objects, wherever the tables are stored and whatever else the two
    processes hold. *)
Theorem view_output_determined w1 w2 df1 dfc1 df2 dfc2 section choice
    titles credits :
  heap w1 !! df1 = Some (DataFrame (Titles titles)) →
  heap w1 !! dfc1 = Some (DataFrame (Credits credits)) →
  heap w2 !! df2 = Some (DataFrame (Titles titles)) →
  heap w2 !! dfc2 = Some (DataFrame (Credits credits)) →
  ∃ w1' w2' rendered built,
    app.view section choice df1 dfc1 w1 = (Ok (), w1') ∧
    app.view section choice df2 dfc2 w2 = (Ok (), w2') ∧
    page w1' = page w1 ++ rendered ∧ page w2' = page w2 ++ rendered ∧
    heap w1' = heap w1 ++ built ∧ heap w2' = heap w2 ++ built.
Proof.
  intros H1 H1c H2 H2c. do 4 eexists.
  split; [by eapply view_run|]. split; [by eapply view_run|]. done.
Qed.

End claims_dispatch.

(** *** The correlation pass *)

Section welford.
Implicit Types (s : pd.welford) (xs ys : list (option R)) (vs : list R).

Lemma inv_INR_S_bounds (n : nat) : (0 < 1 / INR (S n) <= 1)%R.
Proof.
  assert (1 <= INR (S n))%R as Hn.
  { rewrite S_INR. pose proof (pos_INR n). lra. }
  split.
  - apply Rdiv_lt_0_compat; lra.
  - apply (Rmult_le_reg_r (INR (S n))); [lra|]. field_simplify; lra.
Qed.

Lemma inv_INR_1 : (1 / INR 1 = 1)%R.
Proof. simpl. lra. Qed.

Lemma inv_INR_SS_lt (n : nat) : (1 / INR (S (S n)) < 1)%R.
Proof.
  assert (2 <= INR (S (S n)))%R as Hn.
  { rewrite !S_INR. pose proof (pos_INR n). lra. }
  apply (Rmult_lt_reg_r (INR (S (S n)))); [lra|]. field_simplify; lra.
Qed.

(** The term a new value [v] adds to the sum of squares, with [m] the
    mean so far and [t] the inverse of the new count. *)
Lemma increment_nonneg (m v t : R) :
  (0 < t <= 1)%R → (0 <= (v - (m + t * (v - m))) * (v - m))%R.
Proof.
  intros Ht.
  replace ((v - (m + t * (v - m))) * (v - m))%R
    with ((1 - t) * ((v - m) * (v - m)))%R by ring.
  apply Rmult_le_pos; [lra|]. apply Rle_0_sqr.
Qed.

Lemma increment_zero (m v t : R) :
  (t < 1)%R → ((v - (m + t * (v - m))) * (v - m) = 0)%R → v = m.
Proof.
  intros Ht.
  replace ((v - (m + t * (v - m))) * (v - m))%R
    with ((1 - t) * ((v - m) * (v - m)))%R by ring.
  intros [H|H]%Rmult_integral; [lra|].
  apply Rmult_integral in H. lra.
Qed.

(** Exchanging the two columns exchanges the roles of the accumulators. *)
Lemma welford_fold_swap xs ys s1 s2 :
  pd.nobs s2 = pd.nobs s1 → pd.meanx s2 = pd.meany s1 →
  pd.meany s2 = pd.meanx s1 → pd.ssqdx s2 = pd.ssqdy s1 →
  pd.ssqdy s2 = pd.ssqdx s1 → pd.covxy s2 = pd.covxy s1 →
  let r1 := foldl pd.welford_row s1 (zip xs ys) in
  let r2 := foldl pd.welford_row s2 (zip ys xs) in
  pd.nobs r2 = pd.nobs r1 ∧ pd.ssqdx r2 = pd.ssqdy r1 ∧
  pd.ssqdy r2 = pd.ssqdx r1 ∧ pd.covxy r2 = pd.covxy r1.
Proof.
  revert ys s1 s2. induction xs as [|x xs IH]; intros [|y ys] s1 s2;
    intros Hn Hmx Hmy Hsx Hsy Hc; cbn [zip zip_with foldl]; try done.
  destruct x as [vx|], y as [vy|]; cbn [pd.welford_row]; try by apply IH.
  apply IH; unfold pd.welford_step;
    cbn [pd.nobs pd.meanx pd.meany pd.ssqdx pd.ssqdy pd.covxy];
    rewrite ?Hn, ?Hmx, ?Hmy, ?Hsx, ?Hsy, ?Hc; try done.
  ring.
Qed.

(** The Pearson entry does not depend on the order of the two columns. *)
Lemma pair_corr_comm minp xs ys :
  pd.pair_corr minp xs ys = pd.pair_corr minp ys xs.
Proof.
  unfold pd.pair_corr, pd.welford_pass.
  destruct (welford_fold_swap xs ys pd.welford_init pd.welford_init)
    as (Hn & Hsx & Hsy & Hc); try done.
  rewrite Hn, Hsx, Hsy, Hc.
  by rewrite (Rmult_comm (pd.ssqdy _) (pd.ssqdx _)).
Qed.

(** A column against itself is a pass over its numbers. *)
Lemma welford_fold_diag xs s :
  foldl pd.welford_row s (zip xs xs) =
  foldl (λ s v, pd.welford_step s v v) s (pd.observed xs).
Proof.
  revert s. induction xs as [|[v|] xs IH]; intros s; [done|..];
    cbn [zip zip_with foldl pd.welford_row pd.observed omap];
    apply IH.
Qed.

Lemma diagonal_state_init : diagonal_state pd.welford_init.
Proof. unfold diagonal_state. simpl. split_and!; first [done | lra]. Qed.

Lemma diagonal_state_step s v :
  diagonal_state s → diagonal_state (pd.welford_step s v v).
Proof.
  intros (Hm & Hy & Hc & Hpos). unfold diagonal_state, pd.welford_step.
  cbn [pd.nobs pd.meanx pd.meany pd.ssqdx pd.ssqdy pd.covxy].
  rewrite Hm, Hy, Hc. split_and!; try done.
  pose proof (increment_nonneg (pd.meanx s) v (1 / INR (S (pd.nobs s)))
                (inv_INR_S_bounds _)). lra.
Qed.

Lemma ssqdx_step s v :
  pd.ssqdx (pd.welford_step s v v) =
  (pd.ssqdx s + (v - (pd.meanx s + 1 / INR (S (pd.nobs s)) * (v - pd.meanx s)))
                * (v - pd.meanx s))%R.
Proof. reflexivity. Qed.

Lemma meanx_step s v :
  pd.meanx (pd.welford_step s v v) =
  (pd.meanx s + 1 / INR (S (pd.nobs s)) * (v - pd.meanx s))%R.
Proof. reflexivity. Qed.

Lemma nobs_step s v : pd.nobs (pd.welford_step s v v) = S (pd.nobs s).
Proof. reflexivity. Qed.

(** On the diagonal the sum of squares never decreases, and the pass
    counts the numbers of the column. *)
Lemma welford_diag_fold vs s :
  diagonal_state s →
  let r := foldl (λ s v, pd.welford_step s v v) s vs in
  diagonal_state r ∧ (pd.ssqdx s <= pd.ssqdx r)%R ∧
  pd.nobs r = pd.nobs s + length vs.
Proof.
  revert s. induction vs as [|v vs IH]; intros s Hs; cbn [foldl length].
  - split_and!; [done|lra|lia].
  - destruct (IH _ (diagonal_state_step s v Hs)) as (H1 & H2 & H3).
    split_and!; [done| |rewrite H3, nobs_step; lia].
    rewrite ssqdx_step in H2.
    pose proof (increment_nonneg (pd.meanx s) v (1 / INR (S (pd.nobs s)))
                  (inv_INR_S_bounds _)). lra.
Qed.

(** A constant column has no spread. *)
Lemma welford_constant vs s (a : R) :
  pd.nobs s = 0 ∨ pd.meanx s = a → pd.ssqdx s = 0%R →
  Forall (λ v, v = a) vs →
  pd.ssqdx (foldl (λ s v, pd.welford_step s v v) s vs) = 0%R.
Proof.
  intros Hs Hz Hall. revert s Hs Hz.
  induction Hall as [|v vs -> Hall IH]; intros s Hs Hz; cbn [foldl]; [done|].
  apply IH.
  - right. rewrite meanx_step.
    destruct Hs as [->| ->]; [rewrite inv_INR_1|]; ring.
  - rewrite ssqdx_step, Hz.
    destruct Hs as [->| ->]; [rewrite inv_INR_1|]; ring.
Qed.

(** A column without spread is constant. *)
Lemma welford_no_spread vs s :
  diagonal_state s →
  pd.ssqdx (foldl (λ s v, pd.welford_step s v v) s vs) = 0%R →
  (1 ≤ pd.nobs s → Forall (λ v, v = pd.meanx s) vs) ∧
  (pd.nobs s = 0 → ∃ a, Forall (λ v, v = a) vs).
Proof.
  revert s. induction vs as [|v vs IH]; intros s Hs Hz.
  - split; [constructor|]. exists 0%R. constructor.
  - cbn [foldl] in Hz.
    pose proof (diagonal_state_step s v Hs) as Hs1.
    destruct (welford_diag_fold vs _ Hs1) as (_ & Hmono & _).
    cbn zeta in Hmono. rewrite Hz in Hmono.
    destruct Hs as (_ & _ & _ & Hpos).
    pose proof (increment_nonneg (pd.meanx s) v (1 / INR (S (pd.nobs s)))
                  (inv_INR_S_bounds _)) as Hinc.
    rewrite ssqdx_step in Hmono.
    destruct (IH _ Hs1 Hz) as [IH1 _].
    specialize (IH1 ltac:(rewrite nobs_step; lia)).
    rewrite meanx_step in IH1.
    split.
    + intros Hn. destruct (pd.nobs s) as [|n] eqn:Hnobs; [lia|].
      assert (v = pd.meanx s) as Hv.
      { apply (increment_zero _ _ (1 / INR (S (S n))));
          [apply inv_INR_SS_lt|lra]. }
      constructor; [done|].
      eapply Forall_impl; [exact IH1|]. intros v' ->. rewrite Hv. ring.
    + intros Hn. exists v. constructor; [done|].
      eapply Forall_impl; [exact IH1|]. intros v' ->.
      rewrite Hn, inv_INR_1. ring.
Qed.

(** The diagonal entry: NaN for a constant (or empty) column, 1 otherwise. *)
Lemma pair_corr_diag_constant xs (a : R) :
  Forall (λ v, v = a) (pd.observed xs) → pd.pair_corr 1 xs xs = None.
Proof.
  intros Hall. unfold pd.pair_corr, pd.welford_pass.
  rewrite welford_fold_diag. case_bool_decide; [done|].
  destruct (welford_diag_fold (pd.observed xs) _ diagonal_state_init)
    as ((_ & Hy & _ & _) & _ & _).
  rewrite Hy, (welford_constant _ _ a); [|by left|done|done].
  rewrite Rmult_0_l, sqrt_0. by destruct (Req_dec_T 0 0).
Qed.

Lemma pair_corr_diag_spread xs :
  ¬ (∃ a, Forall (λ v, v = a) (pd.observed xs)) →
  pd.pair_corr 1 xs xs = Some 1%R.
Proof.
  intros Hspread. unfold pd.pair_corr, pd.welford_pass.
  rewrite welford_fold_diag.
  destruct (welford_diag_fold (pd.observed xs) _ diagonal_state_init)
    as ((_ & Hy & Hc & Hpos) & _ & Hn).
  cbn zeta in Hn. rewrite bool_decide_eq_false_2.
  2:{ rewrite Hn. destruct (pd.observed xs); [|simpl; lia].
      exfalso. apply Hspread. exists 0%R. constructor. }
  rewrite Hy, Hc, sqrt_square by done.
  destruct (Req_dec_T _ 0) as [Hz|Hnz].
  - exfalso. apply Hspread.
    by apply (welford_no_spread (pd.observed xs) _ diagonal_state_init).
  - f_equal. by field.
Qed.

End welford.

Section claims_correlation.
Import py.
Implicit Types (w : world) (df : loc).

Lemma nancorr_entry K minp mat i j :
  i < K → j < K →
  pd.entry (pd.nancorr K minp mat) i j =
  Some (pd.pair_corr minp (pd.column (max i j) mat) (pd.column (min i j) mat)).
Proof.
  intros Hi Hj. unfold pd.entry, pd.nancorr.
  rewrite list_lookup_fmap, lookup_seq_lt by done. simpl.
  by rewrite list_lookup_fmap, lookup_seq_lt by done.
Qed.

(** The matrix is stored symmetrically, and the value stored does not
    depend on which of the two columns comes first. *)
Lemma corr_matrix_entry titles i j :
  i < 4 → j < 4 →
  pd.entry (views.corr_matrix titles) i j =
  Some (pd.pair_corr 1 (views.corr_column titles i) (views.corr_column titles j)).
Proof.
  intros Hi Hj. unfold views.corr_matrix, views.corr_column.
  rewrite nancorr_entry by done. f_equal.
  destruct (Nat.max_spec i j) as [[? ->]|[? ->]];
    destruct (Nat.min_spec i j) as [[? ->]|[? ->]]; try lia; try done.
  apply pair_corr_comm.
Qed.

(** C3, as the code has it.  For every titles table the branch returns
    normally and draws the 4 x 4 matrix of the rows without NaN; the matrix
    is symmetric; a diagonal entry is NaN when its column is constant over
    those rows (in particular when no row or one row is left); and, in exact
    arithmetic, a diagonal entry is 1 when its column takes two different
    values over those rows. *)
Theorem correlation_symmetric_diagonal w df titles i j :
  heap w !! df = Some (DataFrame (Titles titles)) →
  i < 4 → j < 4 →
  ∃ w',
    app.correlation_analysis df w = (Ok (), w') ∧
    page w' = page w ++
      [el_header "🔗 Correlation Heatmap";
       el_plotly_chart None (views.corr_figure titles) true] ∧
    (∃ v, pd.entry (views.corr_matrix titles) i j = Some v ∧
          pd.entry (views.corr_matrix titles) j i = Some v) ∧
    ((∃ a, Forall (λ v, v = a) (pd.observed (views.corr_column titles i))) →
     pd.entry (views.corr_matrix titles) i i = Some None) ∧
    (¬ (∃ a, Forall (λ v, v = a) (pd.observed (views.corr_column titles i))) →
     pd.entry (views.corr_matrix titles) i i = Some (Some 1%R)).
Proof.
  intros Hdf Hi Hj. eexists. split; [by apply correlation_analysis_run|].
  cbn [page]. split_and!.
  - done.
  - eexists. rewrite !corr_matrix_entry by done.
    split; [done|]. f_equal. apply pair_corr_comm.
  - intros [a Ha]. rewrite corr_matrix_entry by done. f_equal.
    by apply (pair_corr_diag_constant _ a).
  - intros Hspread. rewrite corr_matrix_entry by done. f_equal.
    by apply pair_corr_diag_spread.
Qed.

(** The IMDb scores of [sample.same_score] over its complete rows. *)
Lemma same_score_column :
  pd.observed (views.corr_column sample.same_score 0) =
  [Q2R (7 # 1); Q2R (7 # 1)].
Proof. reflexivity. Qed.

(** C3 as stated fails: on a table whose two complete rows have the same
    IMDb score the first diagonal entry is NaN, not 1. *)
Lemma correlation_diagonal_nan :
  pd.entry (views.corr_matrix sample.same_score) 0 0 = Some None ∧
  pd.entry (views.corr_matrix sample.same_score) 0 0 ≠ Some (Some 1%R).
Proof.
  assert (pd.entry (views.corr_matrix sample.same_score) 0 0 = Some None)
    as Hnan.
  { rewrite corr_matrix_entry by lia. f_equal.
    apply (pair_corr_diag_constant _ (Q2R (7 # 1))).
    rewrite same_score_column. by repeat constructor. }
  split; [done|]. by rewrite Hnan.
Qed.

End claims_correlation.

(** ** The claims on the sample data *)

Example sample_counts :
  views.counts "ACTOR" sample.credits = [(Some "Ann", 2); (Some "Cid", 1)].
Proof. reflexivity. Qed.

Example sample_genre_counts :
  views.genre_counts sample.titles = [(Some "drama", 2); (Some "comedy", 1)].
Proof. reflexivity. Qed.

(** Four rows, three with a type: the counts add up to 3. *)
Example sample_type_counts :
  views.type_counts sample.titles = [(Some "MOVIE", 2); (Some "SHOW", 1)] ∧
  length sample.titles = 4.
Proof. split; reflexivity. Qed.

Example sample_crowd_counts :
  views.counts "ACTOR" sample.crowd =
  (Some "star", 3) :: ((λ n, (Some n, 1)) <$> take 19 sample.singles).
Proof. reflexivity. Qed.

Example sample_first_load :
  app.loaded_tables (app.cached_load_data sample.start) =
  py.Ok (Titles sample.titles, Credits sample.credits).
Proof. reflexivity. Qed.

Lemma actors_and_directors_top_20_witness :
  ∃ w', app.actors_and_directors "ACTOR" 1 sample.loaded = (py.Ok (), w') ∧
        length (views.counts "ACTOR" sample.credits) ≤ 20.
Proof.
  destruct (actors_and_directors_top_20 sample.loaded 1 "ACTOR" sample.credits
              eq_refl) as (w' & Hrun & _ & _ & _ & Hlen & _).
  exists w'. split; assumption.
Defined.


Lemma content_type_counts_witness :
  ∃ w', app.content_type_distribution 0 sample.loaded = (py.Ok (), w') ∧
        sum_list (views.type_counts sample.titles).*2 =
        length (filter (λ r, is_Some (type r)) sample.titles).
Proof.
  destruct (content_type_counts sample.loaded 0 sample.titles eq_refl)
    as (w' & Hrun & _ & _ & Hsum & _).
  exists w'. split; assumption.
Defined.

Lemma actors_and_directors_empty_witness :
  ∃ w', app.actors_and_directors "PRODUCER" 1 sample.loaded = (py.Ok (), w') ∧
        views.filtered_df "PRODUCER" sample.credits = [].
Proof.
  assert (∀ r, r ∈ sample.credits → role r ≠ Some "PRODUCER") as Hnone.
  { apply Forall_forall. by apply (bool_decide_unpack _). }
  destruct (actors_and_directors_empty sample.loaded 1 "PRODUCER"
              sample.credits eq_refl Hnone) as (w' & Hrun & Hempty & _).
  exists w'. split; assumption.
Defined.

Lemma actors_top_20_scenario_witness :
  ∃ rest, views.counts "ACTOR" sample.crowd = (Some "star", 3) :: rest ∧
          length ((Some "star", 3) :: rest) = 20.
Proof.
  assert (Forall (λ r, role r = Some "ACTOR") sample.crowd) as Hrole
    by (by apply (bool_decide_unpack _)).
  assert (name <$> sample.crowd ≡ₚ
          Some <$> ("star" :: "star" :: "star" :: sample.singles)) as Hnames
    by (by apply (bool_decide_unpack _)).
  assert (NoDup ("star" :: sample.singles)) as Hdistinct
    by (by apply (bool_decide_unpack _)).
  destruct (actors_top_20_scenario sample.loaded_crowd 1 sample.crowd "star"
              sample.singles eq_refl Hrole Hnames Hdistinct eq_refl)
    as (w' & rest & _ & _ & Hcounts & Hlen & _).
  exists rest. split; assumption.
Defined.

Lemma cached_load_idempotent_witness :
  ∃ t c, ∀ env,
    (app.later_loads env (app.cached_load_data sample.start).2).1 =
    replicate (length env) (py.Ok (t, c)).
Proof.
  destruct (cached_load_idempotent sample.start 0 1
              (app.cached_load_data sample.start).2 eq_refl eq_refl)
    as (t & c & _ & Hlater).
  exists t, c. intros env. apply Hlater.
Defined.

Lemma load_data_all_or_nothing_witness :
  (∃ e w', app.cached_load_data sample.broken_start = (py.Raise e, w') ∧
           py.cache w' = None) ∧
  (∃ t c, py.cache (app.cached_load_data sample.start).2 = Some (t, c)).
Proof.
  split.
  - destruct (proj1 (load_data_all_or_nothing sample.broken_start) eq_refl
                (or_intror (or_intror (or_introl eq_refl))))
      as (e & w' & Hrun & _ & _ & _ & Hcache & _).
    exists e, w'. split; assumption.
  - destruct (proj2 (load_data_all_or_nothing sample.start) 0 1
                (app.cached_load_data sample.start).2 eq_refl)
      as (t & c & _ & _ & Hcache).
    exists t, c. assumption.
Defined.

Lemma view_leaves_tables_unchanged_witness :
  ∃ w', app.view "Genre Analysis" "" 0 1 sample.loaded = (py.Ok (), w') ∧
        py.heap w' !! 0 = Some (py.DataFrame (Titles sample.titles)) ∧
        py.heap w' !! 1 = Some (py.DataFrame (Credits sample.credits)).
Proof.
  destruct (view_leaves_tables_unchanged sample.loaded 0 1 "Genre Analysis" ""
              sample.titles sample.credits eq_refl eq_refl)
    as (w' & Hrun & Hdf & Hdfc & _).
  exists w'. split_and!; assumption.
Defined.

Lemma view_output_determined_witness :
  ∃ w1' w2' rendered,
    app.view "Actors & Directors" "ACTOR" 0 1 sample.loaded = (py.Ok (), w1') ∧
    app.view "Actors & Directors" "ACTOR" 2 1 sample.elsewhere = (py.Ok (), w2') ∧
    py.page w1' = py.page sample.loaded ++ rendered ∧
    py.page w2' = py.page sample.elsewhere ++ rendered.
Proof.
  destruct (view_output_determined sample.loaded sample.elsewhere 0 1 2 1
              "Actors & Directors" "ACTOR" sample.titles sample.credits
              eq_refl eq_refl eq_refl eq_refl)
    as (w1' & w2' & rendered & built & H1 & H2 & Hp1 & Hp2 & _).
  exists w1', w2', rendered. split_and!; assumption.
Defined.

Lemma correlation_symmetric_diagonal_witness :
  ∃ v, pd.entry (views.corr_matrix sample.titles) 0 1 = Some v ∧
       pd.entry (views.corr_matrix sample.titles) 1 0 = Some v.
Proof.
  destruct (correlation_symmetric_diagonal sample.loaded 0 sample.titles 0 1
              eq_refl ltac:(lia) ltac:(lia)) as (w' & _ & _ & Hsym & _).
  exact Hsym.
Defined.

(** ** Further properties of the script *)

(** *** The bar charts *)

Section charts.
Import py.
Implicit Types (w : world) (df df_credits : loc).

Lemma value_counts_complete_row {A B} `{EqDecision B} (f : A → option B)
    (rows : list A) (r : A) (b : B) :
  r ∈ rows → f r = Some b →
  (Some b, length (filter (λ r, f r = Some b) rows))
    ∈ pd.value_counts (f <$> rows) true.
Proof.
  intros Hr Hf. apply value_counts_elem. rewrite occurrences_column.
  split; [done|].
  assert (r ∈ filter (λ r, f r = Some b) rows) as Hin
    by (by apply list_elem_of_filter).
  destruct (filter (λ r, f r = Some b) rows); [by apply elem_of_nil in Hin|].
  simpl. lia.
Qed.

(** Counting after the filter of line 89 is counting without it. *)
Lemma genre_counts_unfiltered titles :
  views.genre_counts titles = pd.value_counts (primary_genre <$> titles) true.
Proof.
  unfold views.genre_counts, pd.value_counts. do 2 f_equal.
  rewrite genre_df_filter.
  induction titles as [|r titles IH]; [done|].
  rewrite filter_cons. destruct (primary_genre r) as [g|] eqn:Hg.
  - rewrite decide_True by eauto. csimpl. rewrite Hg.
    rewrite !filter_cons, !decide_True by eauto. by rewrite IH.
  - rewrite decide_False by (by intros [? ?]). csimpl. rewrite Hg.
    rewrite filter_cons, decide_False by (by intros [? ?]). apply IH.
Qed.

(** X1.  Genre Analysis (lines 89-93): the filter on non-NaN genres does
    not change the result; the chart is the [value_counts] of the genre
    column of the whole table, the same aggregation as Content Type
    Distribution applies to the type column. *)
Theorem genre_filter_redundant w df titles :
  heap w !! df = Some (DataFrame (Titles titles)) →
  ∃ w',
    app.genre_analysis df w = (Ok (), w') ∧
    page w' = page w ++
      [el_header "🎭 Genre Analysis";
       el_plotly_chart None
         (Figure (BarTrace ["Genre"; "Count"]
                    (pd.value_counts (primary_genre <$> titles) true)
                    "Genre" "Count" None)
                 "Content Distribution by Primary Genre"
                 [("title_x", "0.5"); ("xaxis_tickangle", "-45")] [])
         true].
Proof.
  intros Hdf. eexists. split; [by apply genre_analysis_run|].
  cbn [page]. unfold views.elements. simpl.
  unfold views.genre_figure. by rewrite genre_counts_unfiltered.
Qed.

(** X2.  Genre Analysis and Content Type Distribution (lines 92, 116):
    every genre, and every type, that occurs in the table has exactly one
    bar, carrying its number of rows, and the bars are in order of
    non-increasing count. *)
Theorem genre_and_type_bars titles :
  (∀ r g, r ∈ titles → primary_genre r = Some g →
     (Some g, length (filter (λ r, primary_genre r = Some g) titles))
       ∈ views.genre_counts titles) ∧
  NoDup (views.genre_counts titles).*1 ∧
  StronglySorted by_count_desc (views.genre_counts titles) ∧
  (∀ r t, r ∈ titles → type r = Some t →
     (Some t, length (filter (λ r, type r = Some t) titles))
       ∈ views.type_counts titles) ∧
  NoDup (views.type_counts titles).*1 ∧
  StronglySorted by_count_desc (views.type_counts titles).
Proof.
  rewrite genre_counts_unfiltered. unfold views.type_counts. split_and!.
  - intros r g. apply value_counts_complete_row.
  - apply value_counts_NoDup.
  - apply value_counts_sorted.
  - intros r t. apply value_counts_complete_row.
  - apply value_counts_NoDup.
  - apply value_counts_sorted.
Qed.

Lemma counts_all_names choice credits n :
  0 < pages.participations choice n credits →
  (Some n, pages.participations choice n credits)
    ∈ pd.value_counts (name <$> views.filtered_df choice credits) true.
Proof.
  intros Hpos. apply value_counts_elem.
  rewrite occurrences_column, filtered_df_filter, list_filter_filter.
  unfold pages.participations in *.
  assert (filter (λ r, name r = Some n ∧ role r = Some choice) credits =
          filter (λ r, role r = Some choice ∧ name r = Some n) credits) as ->
    by (apply list_filter_iff; intros; tauto).
  done.
Qed.

(** X3.  Actors & Directors (lines 217-222) draws the top of the ranking: a
    name with the selected role either has its bar, or the chart is full (20
    bars) and every bar is at least as high as that name's count.  With at
    most 20 distinct names nobody is left out. *)
Theorem top_20_leaves_out_only_smaller choice credits n :
  0 < pages.participations choice n credits →
  (Some n, pages.participations choice n credits) ∈ views.counts choice credits ∨
  (length (views.counts choice credits) = 20 ∧
   ∀ k c, (k, c) ∈ views.counts choice credits →
          pages.participations choice n credits ≤ c).
Proof.
  intros Hpos. pose proof (counts_all_names _ _ _ Hpos) as Hin.
  pose proof (value_counts_sorted (name <$> views.filtered_df choice credits) true)
    as Hsorted.
  unfold views.counts, pd.head.
  set (vc := pd.value_counts (name <$> views.filtered_df choice credits) true) in *.
  apply list_elem_of_lookup_1 in Hin as [j Hj].
  destruct (decide (j < 20)) as [Hlt|Hge].
  - left. apply list_elem_of_lookup_2 with j. by rewrite lookup_take_lt.
  - right. split.
    + rewrite length_take. apply lookup_lt_Some in Hj. lia.
    + intros k c [i [Hi Hi20]]%elem_of_take.
      apply (StronglySorted_lookup_le vc i j (k, c)
               (Some n, pages.participations choice n credits) Hsorted);
        [lia|done..].
Qed.

(** X4.  Actors & Directors: the bars never count more than the rows the
    filter kept, and they count all of them when no kept row lacks a name
    and there are at most 20 distinct names. *)
Theorem bars_count_kept_rows choice credits :
  sum_list (views.counts choice credits).*2
    ≤ length (views.filtered_df choice credits) ∧
  (Forall (λ r, is_Some (name r)) (views.filtered_df choice credits) →
   length (pd.value_counts (name <$> views.filtered_df choice credits) true) ≤ 20 →
   sum_list (views.counts choice credits).*2
     = length (views.filtered_df choice credits)).
Proof.
  unfold views.counts, pd.head.
  set (vc := pd.value_counts (name <$> views.filtered_df choice credits) true).
  assert (sum_list vc.*2 ≤ length (views.filtered_df choice credits)) as Hall.
  { unfold vc. rewrite value_counts_sum, length_filter_is_Some_fmap.
    apply length_filter. }
  split.
  - etrans; [|exact Hall].
    rewrite <-(take_drop 20 vc) at 2. rewrite fmap_app, sum_list_with_app. lia.
  - intros Hnames Hlen. rewrite take_ge by done. unfold vc.
    rewrite value_counts_sum, length_filter_is_Some_fmap.
    by rewrite filter_Forall_id.
Qed.

End charts.

(** *** The other views and the edges of the dispatch *)

Section other_views.
Import py.
Implicit Types (w : world) (df df_credits : loc).

(** X5.  Dataset Overview (lines 69-80): the shape reports every row of the
    table, and the frame displayed is a new object holding the first rows in
    table order, five of them or all when the table has fewer; a table
    without rows is displayed as an empty frame, not as an error. *)
Theorem dataset_overview_first_rows w df titles :
  heap w !! df = Some (DataFrame (Titles titles)) →
  ∃ w' ncols shown,
    app.dataset_overview df w = (Ok (), w') ∧
    page w' = page w ++
      [el_header "📁 Dataset Overview";
       el_write_shape "**Dataset Shape:**" (length titles, ncols);
       el_dataframe shown;
       el_subheader "Column Information";
       el_write_dtypes (pandas.dtypes_of titles)] ∧
    shown `prefix_of` titles ∧
    length shown = min 5 (length titles) ∧
    heap w' = heap w ++ [DataFrame (Titles shown)].
Proof.
  intros Hdf. exists
    (World (heap w ++ views.objects "Dataset Overview" "" titles [])
           (page w ++ views.elements "Dataset Overview" "" titles [])
           (cache w) (disk w) (reads w)), 7, (take 5 titles).
  split; [by apply dataset_overview_run|]. cbn [page heap]. split_and!.
  - done.
  - apply prefix_take.
  - apply length_take.
  - done.
Qed.

(** X6.  Release Year Analysis and Ratings & Popularity (lines 133-179)
    plot the loaded table as it is: the histogram gets the release year of
    every row and each scatter plot one point per row, in table order, NaN
    included; the votes and popularity axes are logarithmic, and the two
    scatter plots go to the first and the second column. *)
Theorem plots_use_every_row w df titles :
  heap w !! df = Some (DataFrame (Titles titles)) →
  (∃ w' years,
     app.release_year_analysis df w = (Ok (), w') ∧
     page w' = page w ++
       [el_header "📆 Release Year Trends";
        el_plotly_chart None
          (Figure (HistogramTrace "release_year" 30 years)
                  "Distribution of Content by Release Year"
                  [("title_x", "0.5")] [])
          true] ∧
     length years = length titles ∧
     ∀ i r, titles !! i = Some r → years !! i = Some (release_year r)) ∧
  (∃ w' imdb tmdb,
     app.ratings_and_popularity df w = (Ok (), w') ∧
     page w' = page w ++
       [el_header "⭐ Ratings & Popularity Analysis";
        el_columns 2;
        el_plotly_chart (Some 0)
          (Figure (ScatterTrace "imdb_votes" "imdb_score" imdb (6 # 10))
                  "IMDb Votes vs IMDb Score"
                  [("title_x", "0.5")] [("type", "log")])
          true;
        el_plotly_chart (Some 1)
          (Figure (ScatterTrace "tmdb_popularity" "tmdb_score" tmdb (6 # 10))
                  "TMDB Popularity vs TMDB Score"
                  [("title_x", "0.5")] [("type", "log")])
          true] ∧
     length imdb = length titles ∧ length tmdb = length titles ∧
     ∀ i r, titles !! i = Some r →
            imdb !! i = Some (imdb_votes r, imdb_score r) ∧
            tmdb !! i = Some (tmdb_popularity r, tmdb_score r)).
Proof.
  intros Hdf. split.
  - exists (World (heap w ++ views.objects "Release Year Analysis" "" titles [])
             (page w ++ views.elements "Release Year Analysis" "" titles [])
             (cache w) (disk w) (reads w)), (release_year <$> titles).
    split; [by apply release_year_analysis_run|]. split_and!.
    + done.
    + apply length_fmap.
    + intros i r Hi. by rewrite list_lookup_fmap, Hi.
  - exists (World (heap w ++ views.objects "Ratings & Popularity" "" titles [])
             (page w ++ views.elements "Ratings & Popularity" "" titles [])
             (cache w) (disk w) (reads w)),
      ((λ r, (imdb_votes r, imdb_score r)) <$> titles),
      ((λ r, (tmdb_popularity r, tmdb_score r)) <$> titles).
    split; [by apply ratings_and_popularity_run|]. split_and!.
    + done.
    + apply length_fmap.
    + apply length_fmap.
    + intros i r Hi. by rewrite !list_lookup_fmap, Hi.
Qed.

(** X7.  Conclusion (lines 244-258) does not look at the tables: whatever
    the two variables refer to, it returns normally, renders its header and
    its text and leaves the heap as it is. *)
Theorem conclusion_needs_no_table w df df_credits choice :
  app.view "Conclusion" choice df df_credits w =
  (Ok (),
   World (heap w)
         (page w ++ [el_header "📌 Project Conclusion";
                     el_markdown views.conclusion_text])
         (cache w) (disk w) (reads w)).
Proof.
  replace (app.view "Conclusion" choice df df_credits) with app.conclusion
    by reflexivity.
  rewrite conclusion_run. cbn. by rewrite app_nil_r.
Qed.

(** X8.  The [if]/[elif] chain of lines 69-244 has no [else]: a selection
    that is none of the eight menu labels renders nothing, builds nothing and
    raises nothing. *)
Theorem unknown_section_renders_nothing w df df_credits section choice :
  section ∉ app.sections →
  app.view section choice df df_credits w = (Ok (), w).
Proof.
  intros Hnot. unfold app.view.
  repeat (rewrite bool_decide_eq_false_2;
          [|intros ->; apply Hnot; unfold app.sections;
            repeat first [ apply list_elem_of_here | apply list_elem_of_further ]]).
  reflexivity.
Qed.

Lemma getitem_raise w df t key :
  heap w !! df = Some (DataFrame t) → pd.str_column t key = None →
  pandas.getitem df key w = (Raise (KeyError key), w).
Proof.
  intros Hdf Hcol. unfold pandas.getitem.
  rewrite (bind_run _ _ _ _ _ (deref_run _ _ _ Hdf)). by rewrite Hcol.
Qed.

(** X9.  A frame without the column a branch subscripts (here: the two
    files' contents exchanged).  Genre Analysis, Content Type Distribution
    and Actors & Directors raise [KeyError] with the name of the missing
    column at its first use; the header (and the select box) rendered before
    that stay on the page, no chart is drawn and no object is built. *)
Theorem missing_column_raises_key_error w df df_credits choice titles credits :
  heap w !! df = Some (DataFrame (Credits credits)) →
  heap w !! df_credits = Some (DataFrame (Titles titles)) →
  app.view "Genre Analysis" choice df df_credits w =
    (Raise (KeyError "primary_genre"),
     World (heap w) (page w ++ [el_header "🎭 Genre Analysis"])
           (cache w) (disk w) (reads w)) ∧
  app.view "Content Type Distribution" choice df df_credits w =
    (Raise (KeyError "type"),
     World (heap w) (page w ++ [el_header "🎬 Movies vs TV Shows"])
           (cache w) (disk w) (reads w)) ∧
  app.view "Actors & Directors" choice df df_credits w =
    (Raise (KeyError "role"),
     World (heap w)
           (page w ++ [el_header "🎥 Actor & Director Participation";
                       el_selectbox "Select Role" ["ACTOR"; "DIRECTOR"]])
           (cache w) (disk w) (reads w)).
Proof.
  destruct w as [h p c d r]. cbn [heap page cache disk reads].
  intros Hdf Hdfc. split_and!.
  - replace (app.view "Genre Analysis" choice df df_credits)
      with (app.genre_analysis df) by reflexivity.
    unfold app.genre_analysis. run_emit.
    erewrite bind_raise; [done|]. by eapply getitem_raise.
  - replace (app.view "Content Type Distribution" choice df df_credits)
      with (app.content_type_distribution df) by reflexivity.
    unfold app.content_type_distribution. run_emit.
    erewrite bind_raise; [done|]. by eapply getitem_raise.
  - replace (app.view "Actors & Directors" choice df df_credits)
      with (app.actors_and_directors choice df_credits) by reflexivity.
    unfold app.actors_and_directors. run_emit. run_emit.
    erewrite bind_raise; [|by eapply getitem_raise].
    by rewrite <-app_assoc.
Qed.

(** X10.  The in-place changes made to a figure between its creation and
    [st.plotly_chart] reach the page: every chart of every view is rendered
    with a centred title ([title_x = 0.5]) and at container width. *)
Theorem every_chart_centred w df df_credits section choice titles credits :
  heap w !! df = Some (DataFrame (Titles titles)) →
  heap w !! df_credits = Some (DataFrame (Credits credits)) →
  ∃ w' rendered,
    app.view section choice df df_credits w = (Ok (), w') ∧
    page w' = page w ++ rendered ∧
    ∀ column fig ucw, el_plotly_chart column fig ucw ∈ rendered →
      ucw = true ∧ ("title_x", "0.5") ∈ fig_layout fig.
Proof.
  intros Hdf Hdfc. do 2 eexists. split; [by eapply view_run|].
  cbn [page]. split; [done|].
  intros column fig ucw. unfold views.elements.
  repeat case_bool_decide;
    rewrite ?elem_of_cons, ?elem_of_nil;
    intros Hin; repeat destruct Hin as [Hin|Hin]; try done;
    injection Hin as -> -> ->; (split; [done|]);
    cbn [fig_layout views.genre_figure views.type_figure
         views.release_year_figure views.imdb_figure views.tmdb_figure
         views.corr_figure views.actors_figure];
    apply list_elem_of_here.
Qed.

End other_views.

(** *** One run of the whole script *)

Section whole_script.
Import py.
Implicit Types (w : world).

Lemma lookup_loaded_titles (h : list obj) (a b : obj) :
  (h ++ [a; b]) !! length h = Some a.
Proof. by apply list_lookup_middle. Qed.

Lemma lookup_loaded_credits (h : list obj) (a b : obj) :
  (h ++ [a; b]) !! S (length h) = Some b.
Proof.
  rewrite lookup_app_r by lia.
  by replace (S (length h) - length h) with 1 by lia.
Qed.

(** The part of the script after [load_data] returned. *)
Lemma main_after_load w section choice titles credits :
  (st.sidebar_title "Navigation" ;;;
   section <- st.sidebar_radio "Go to" app.sections section ;;
   app.view section choice (length (heap w)) (S (length (heap w))) ;;;
   st.markdown "---" ;;;
   st.markdown "**Amazon Prime Data Analysis | Built with Streamlit** 🚀")
    (set_heap (heap w ++ [DataFrame (Titles titles); DataFrame (Credits credits)]) w)
  = (Ok (),
     World (heap w ++ [DataFrame (Titles titles); DataFrame (Credits credits)]
                   ++ views.objects section choice titles credits)
           (page w ++ pages.navigation
                   ++ views.elements section choice titles credits
                   ++ pages.footer)
           (cache w) (disk w) (reads w)).
Proof.
  destruct w as [h p c d r]. world_simpl.
  run_emit.
  erewrite bind_run; [|reflexivity]. world_simpl.
  erewrite bind_run;
    [|eapply view_run; [apply lookup_loaded_titles|apply lookup_loaded_credits]].
  world_simpl. run_emit.
  unfold st.markdown, emit. world_simpl.
  rewrite <-!app_assoc. reflexivity.
Qed.

Lemma main_preamble w selected choice :
  app.main selected choice w =
  (loaded <- app.cached_load_data ;;
   st.sidebar_title "Navigation" ;;;
   section <- st.sidebar_radio "Go to" app.sections selected ;;
   app.view section choice loaded.1 loaded.2 ;;;
   st.markdown "---" ;;;
   st.markdown "**Amazon Prime Data Analysis | Built with Streamlit** 🚀")
    (set_page (page w ++ pages.preamble) w).
Proof.
  destruct w as [h p c d r]. unfold app.main.
  run_emit. run_emit. run_emit. rewrite <-!app_assoc. reflexivity.
Qed.

(** X11.  The first run of the script in a process, with both files in
    place: it returns normally; the page is the preamble, the sidebar, the
    elements of the selected view and the footer, in this order; each file
    has been read exactly once, titles first; and the two tables are in the
    cache. *)
Theorem main_first_run w section choice titles credits :
  cache w = None →
  disk w "data/titles.csv" = Csv (Titles titles) →
  disk w "data/credits.csv" = Csv (Credits credits) →
  ∃ w',
    app.main section choice w = (Ok (), w') ∧
    page w' = page w ++ pages.whole section choice titles credits ∧
    reads w' = reads w ++ ["data/titles.csv"; "data/credits.csv"] ∧
    cache w' = Some (Titles titles, Credits credits) ∧
    heap w' = heap w ++ [DataFrame (Titles titles); DataFrame (Credits credits)]
                     ++ views.objects section choice titles credits.
Proof.
  intros Hcache Ht Hc.
  rewrite main_preamble.
  erewrite bind_run; [|by apply cached_load_miss].
  unfold set_page. cbn [fst snd heap page cache disk reads].
  pose proof (main_after_load
    (World (heap w) (page w ++ pages.preamble)
           (Some (Titles titles, Credits credits)) (disk w)
           (reads w ++ ["data/titles.csv"; "data/credits.csv"]))
    section choice titles credits) as Hrest.
  unfold set_heap in Hrest. cbn [heap page cache disk reads] in Hrest.
  rewrite Hrest.
  eexists. split; [done|]. cbn [page reads cache heap].
  split_and!; try done. unfold pages.whole. by rewrite <-!app_assoc.
Qed.

(** X12.  A later run in the same process, after a run that filled the
    cache: whatever the selection, and whatever has become of the files
    (changed, malformed, deleted), it returns normally, renders the page from
    the cached tables and opens no file. *)
Theorem main_rerun_uses_cache w section choice titles credits :
  cache w = Some (Titles titles, Credits credits) →
  ∃ w',
    app.main section choice w = (Ok (), w') ∧
    page w' = page w ++ pages.whole section choice titles credits ∧
    reads w' = reads w ∧
    cache w' = cache w.
Proof.
  intros Hcache.
  rewrite main_preamble.
  erewrite bind_run; [|by apply cached_load_hit].
  unfold set_page. cbn [fst snd heap page cache disk reads].
  pose proof (main_after_load
    (World (heap w) (page w ++ pages.preamble) (cache w) (disk w) (reads w))
    section choice titles credits) as Hrest.
  unfold set_heap in Hrest. cbn [heap page cache disk reads] in Hrest.
  rewrite Hrest.
  eexists. split; [done|]. cbn [page reads cache].
  split_and!; try done. unfold pages.whole. by rewrite <-!app_assoc.
Qed.

(** X13.  A run that cannot load (empty cache, a file missing or
    malformed) stops at line 46: the exception leaves the script, the page
    holds the preamble only (no sidebar, no view, no footer) and nothing is
    cached. *)
Theorem main_stops_at_failed_load w section choice e :
  cache w = None →
  app.load_error (disk w) = Some e →
  ∃ w',
    app.main section choice w = (Raise e, w') ∧
    page w' = page w ++ pages.preamble ∧
    cache w' = None.
Proof.
  intros Hcache He.
  rewrite main_preamble.
  destruct (cached_load_miss_raise (set_page (page w ++ pages.preamble) w) e)
    as (w' & Hrun & Hpage & Hc & _); [done..|].
  exists w'. split; [by apply bind_raise|]. by rewrite Hpage.
Qed.

(** X14.  A failed load is not remembered: once the files are in place,
    the next invocation of the loader reads them and returns their tables. *)
Theorem failed_load_is_retried w e d h p t c :
  cache w = None →
  app.load_error (disk w) = Some e →
  d "data/titles.csv" = Csv t →
  d "data/credits.csv" = Csv c →
  ∃ w',
    app.cached_load_data w = (Raise e, w') ∧
    app.loaded_tables (app.cached_load_data (app.between_runs d h p w'))
      = Ok (t, c) ∧
    cache (app.cached_load_data (app.between_runs d h p w')).2 = Some (t, c).
Proof.
  intros Hcache He Ht Hc.
  destruct (cached_load_miss_raise w e Hcache He) as (w' & Hrun & _ & Hc' & _).
  exists w'. split; [done|].
  assert (cache (app.between_runs d h p w') = None) as Hb by done.
  rewrite (cached_load_miss _ t c Hb Ht Hc).
  cbn [snd cache app.loaded_tables heap app.between_runs].
  by rewrite lookup_loaded_titles, lookup_loaded_credits.
Qed.

(** X15.  [load_data] (lines 39-42) opens the titles file first.  When it
    is missing or malformed the credits file is never opened and the error
    names the titles file, whatever the state of the credits file; when only
    the credits file is bad, both have been opened once. *)
Theorem load_data_reads_titles_first w :
  (disk w "data/titles.csv" ≠ Missing →
   disk w "data/titles.csv" ≠ Malformed →
   ∀ e w', app.load_data w = (Raise e, w') →
     reads w' = reads w ++ ["data/titles.csv"; "data/credits.csv"] ∧
     (e = FileNotFoundError "data/credits.csv" ∨
      e = ParserError "data/credits.csv")) ∧
  (disk w "data/titles.csv" = Missing ∨ disk w "data/titles.csv" = Malformed →
   ∃ e w', app.load_data w = (Raise e, w') ∧
     reads w' = reads w ++ ["data/titles.csv"] ∧
     heap w' = heap w ∧
     (e = FileNotFoundError "data/titles.csv" ∨
      e = ParserError "data/titles.csv")).
Proof.
  split.
  - intros Hm Hf e w'. unfold app.load_data.
    destruct (disk w "data/titles.csv") as [| |t] eqn:Ht; [done..|].
    rewrite (bind_run _ _ _ _ _ (read_csv_run _ _ _ Ht)).
    destruct (disk w "data/credits.csv") as [| |c] eqn:Hc.
    + erewrite bind_raise; [|by apply read_csv_missing].
      intros [= <- <-]. cbn. rewrite <-app_assoc. auto.
    + erewrite bind_raise; [|by apply read_csv_malformed].
      intros [= <- <-]. cbn. rewrite <-app_assoc. auto.
    + erewrite bind_run; [|by apply read_csv_run]. done.
  - unfold app.load_data. intros [Ht|Ht].
    + do 2 eexists. split; [apply bind_raise; by apply read_csv_missing|].
      cbn. auto.
    + do 2 eexists. split; [apply bind_raise; by apply read_csv_malformed|].
      cbn. auto.
Qed.

End whole_script.

(** *** The correlation matrix: range and NaN entries *)

Section correlation_entries.
Implicit Types (s : pd.welford) (xs ys : list (option R)) (vs : list R).

(** Cauchy-Schwarz is kept by one update of the three sums. *)
Lemma cauchy_schwarz_step (Sx Sy C a u v : R) :
  (0 <= Sx)%R → (0 <= Sy)%R → (C * C <= Sx * Sy)%R → (0 <= a)%R →
  ((C + a * (u * v)) * (C + a * (u * v))
     <= (Sx + a * (u * u)) * (Sy + a * (v * v)))%R.
Proof.
  intros HSx HSy HC Ha.
  assert (0 <= Sx * (v * v) + Sy * (u * u) - 2 * C * (u * v))%R as HQ.
  { destruct (Rle_lt_or_eq_dec 0 Sx HSx) as [Hpos|<-].
    - apply (Rmult_le_reg_l Sx); [done|]. rewrite Rmult_0_r.
      replace (Sx * (Sx * (v * v) + Sy * (u * u) - 2 * C * (u * v)))%R
        with ((Sx * v - C * u) * (Sx * v - C * u)
              + (Sx * Sy - C * C) * (u * u))%R by ring.
      apply Rplus_le_le_0_compat; [apply Rle_0_sqr|].
      apply Rmult_le_pos; [lra|apply Rle_0_sqr].
    - assert (C = 0)%R as -> by nra.
      pose proof (Rle_0_sqr u) as Hu. unfold Rsqr in Hu. nra. }
  nra.
Qed.

Lemma welford_fold_cauchy_schwarz xs ys s :
  (0 <= pd.ssqdx s)%R → (0 <= pd.ssqdy s)%R →
  (pd.covxy s * pd.covxy s <= pd.ssqdx s * pd.ssqdy s)%R →
  let r := foldl pd.welford_row s (zip xs ys) in
  (0 <= pd.ssqdx r)%R ∧ (0 <= pd.ssqdy r)%R ∧
  (pd.covxy r * pd.covxy r <= pd.ssqdx r * pd.ssqdy r)%R.
Proof.
  revert ys s. induction xs as [|x xs IH]; intros [|y ys] s HSx HSy HC;
    cbn [zip zip_with foldl]; try done.
  destruct x as [vx|], y as [vy|]; cbn [pd.welford_row]; try by apply IH.
  pose proof (inv_INR_S_bounds (pd.nobs s)) as [Ht0 Ht1].
  set (t := (1 / INR (S (pd.nobs s)))%R) in *.
  set (u := (vx - pd.meanx s)%R). set (v := (vy - pd.meany s)%R).
  assert (pd.ssqdx (pd.welford_step s vx vy)
          = pd.ssqdx s + (1 - t) * (u * u))%R as Hx
    by (unfold pd.welford_step, t, u; simpl; ring).
  assert (pd.ssqdy (pd.welford_step s vx vy)
          = pd.ssqdy s + (1 - t) * (v * v))%R as Hy
    by (unfold pd.welford_step, t, v; simpl; ring).
  assert (pd.covxy (pd.welford_step s vx vy)
          = pd.covxy s + (1 - t) * (u * v))%R as Hc
    by (unfold pd.welford_step, t, u, v; simpl; ring).
  pose proof (Rle_0_sqr u) as Hu. pose proof (Rle_0_sqr v) as Hv.
  unfold Rsqr in Hu, Hv.
  apply IH; rewrite ?Hx, ?Hy, ?Hc.
  - nra.
  - nra.
  - apply cauchy_schwarz_step; [done..|lra].
Qed.

(** Every number in the matrix is a correlation: between -1 and 1. *)
Lemma pair_corr_range minp xs ys (v : R) :
  pd.pair_corr minp xs ys = Some v → (-1 <= v <= 1)%R.
Proof.
  unfold pd.pair_corr, pd.welford_pass.
  destruct (welford_fold_cauchy_schwarz xs ys pd.welford_init)
    as (HSx & HSy & HC); simpl; [lra..|].
  set (r := foldl pd.welford_row pd.welford_init (zip xs ys)) in *.
  case_bool_decide; [done|].
  destruct (Req_dec_T _ 0) as [|Hnz]; [done|]. intros [= <-].
  set (D := sqrt (pd.ssqdx r * pd.ssqdy r)) in *.
  assert (0 <= pd.ssqdx r * pd.ssqdy r)%R as Hprod by (by apply Rmult_le_pos).
  assert (0 < D)%R as HD.
  { pose proof (sqrt_pos (pd.ssqdx r * pd.ssqdy r)). fold D in H0. lra. }
  assert (D * D = pd.ssqdx r * pd.ssqdy r)%R as HDD by (by apply sqrt_sqrt).
  assert (- D <= pd.covxy r <= D)%R as [Hlo Hhi] by (split; nra).
  split.
  - apply (Rmult_le_reg_r D); [done|]. unfold Rdiv.
    rewrite Rmult_assoc, Rinv_l by lra. lra.
  - apply (Rmult_le_reg_r D); [done|]. unfold Rdiv.
    rewrite Rmult_assoc, Rinv_l by lra. lra.
Qed.

(** With both cells present in every row, the sums for the first column
    are those of the column alone. *)
Lemma welford_fold_marginal (vs ws : list R) s1 s2 :
  length vs = length ws →
  pd.nobs s1 = pd.nobs s2 → pd.meanx s1 = pd.meanx s2 →
  pd.ssqdx s1 = pd.ssqdx s2 →
  let r1 := foldl pd.welford_row s1 (zip (Some <$> vs) (Some <$> ws)) in
  let r2 := foldl (λ s v, pd.welford_step s v v) s2 vs in
  pd.nobs r1 = pd.nobs r2 ∧ pd.ssqdx r1 = pd.ssqdx r2.
Proof.
  revert ws s1 s2. induction vs as [|v vs IH]; intros [|w ws] s1 s2 Hlen Hn Hm Hs;
    try done.
  cbn [fmap list_fmap zip zip_with foldl pd.welford_row].
  apply IH; [by injection Hlen|..]; unfold pd.welford_step;
    cbn [pd.nobs pd.meanx pd.ssqdx]; by rewrite ?Hn, ?Hm, ?Hs.
Qed.

(** An entry of two complete columns of equal length is NaN exactly when
    one of the two columns is constant. *)
Lemma pair_corr_nan_iff (vs ws : list R) :
  length vs = length ws →
  pd.pair_corr 1 (Some <$> vs) (Some <$> ws) = None ↔
  (∃ a, Forall (λ v, v = a) vs) ∨ (∃ b, Forall (λ w, w = b) ws).
Proof.
  intros Hlen. unfold pd.pair_corr, pd.welford_pass.
  destruct (welford_fold_marginal vs ws pd.welford_init pd.welford_init Hlen)
    as [Hn Hx]; [done..|].
  destruct (welford_fold_swap (Some <$> vs) (Some <$> ws)
              pd.welford_init pd.welford_init) as (_ & Hsw & _); [done..|].
  destruct (welford_fold_marginal ws vs pd.welford_init pd.welford_init)
    as [_ Hy]; [done..|].
  cbn zeta in *. rewrite Hsw in Hy. rewrite Hn, Hx, Hy.
  destruct (welford_diag_fold vs _ diagonal_state_init)
    as ((_ & _ & _ & Hxpos) & _ & Hnv).
  destruct (welford_diag_fold ws _ diagonal_state_init)
    as ((_ & _ & _ & Hypos) & _ & _).
  cbn zeta in *. rewrite Hnv. simpl.
  split.
  - case_bool_decide as Hnobs.
    + intros _. left. exists 0%R. destruct vs; [constructor|simpl in Hnobs; lia].
    + destruct (Req_dec_T _ 0) as [Hz|]; [|done]. intros _.
      apply sqrt_eq_0 in Hz; [|by apply Rmult_le_pos].
      apply Rmult_integral in Hz as [Hz|Hz].
      * left. by apply (welford_no_spread vs _ diagonal_state_init).
      * right. by apply (welford_no_spread ws _ diagonal_state_init).
  - intros Hconst. case_bool_decide; [done|].
    assert (pd.ssqdx (foldl (λ s v, pd.welford_step s v v) pd.welford_init vs)
            * pd.ssqdx (foldl (λ s v, pd.welford_step s v v) pd.welford_init ws)
            = 0)%R as ->.
    { destruct Hconst as [[a Ha]|[b Hb]].
      - rewrite (welford_constant vs _ a); [ring|by left|done|done].
      - rewrite (welford_constant ws _ b); [ring|by left|done|done]. }
    rewrite sqrt_0. by destruct (Req_dec_T 0 0).
Qed.

(** After [dropna] every column of the matrix is complete. *)
Lemma column_complete (rows : list (list (option Q))) i :
  i < 4 →
  Forall (λ r, length r = 4 ∧ Forall is_Some r) rows →
  ∃ vals, pd.column i (pd.to_numpy rows) = Some <$> vals ∧
          length vals = length rows.
Proof.
  intros Hi. induction 1 as [|r rows [Hlen Hsome] Hrows (vals & Hvals & Hl)].
  - by exists [].
  - destruct (lookup_lt_is_Some_2 r i) as [cell Hcell]; [lia|].
    assert (is_Some cell) as [q ->].
    { eapply Forall_forall in Hsome; [exact Hsome|].
      by eapply list_elem_of_lookup_2. }
    exists (Q2R q :: vals). split; [|simpl; by rewrite Hl].
    unfold pd.column, pd.to_numpy in *. csimpl.
    rewrite list_lookup_fmap, Hcell. csimpl. by rewrite Hvals.
Qed.

Lemma corr_column_complete titles i :
  i < 4 →
  ∃ vals, views.corr_column titles i = Some <$> vals ∧
          length vals = length (views.numeric_df titles).
Proof.
  intros Hi. apply column_complete; [done|].
  apply Forall_forall. intros r [Hsome Hr]%list_elem_of_filter.
  split; [|done]. unfold views.selected in Hr.
  by apply list_elem_of_fmap in Hr as (t & -> & _).
Qed.

Lemma observed_Some vs : pd.observed (Some <$> vs) = vs.
Proof.
  unfold pd.observed. induction vs as [|v vs IH]; csimpl; [done|].
  by rewrite IH.
Qed.

(** X16.  Correlation Analysis (line 191): every entry of the matrix that
    is a number lies between -1 and 1. *)
Theorem correlation_entries_in_range titles i j (v : R) :
  i < 4 → j < 4 →
  pd.entry (views.corr_matrix titles) i j = Some (Some v) →
  (-1 <= v <= 1)%R.
Proof.
  intros Hi Hj. rewrite corr_matrix_entry by done. intros [= Hv].
  by eapply pair_corr_range.
Qed.

(** X17.  Correlation Analysis (lines 187-191), in exact arithmetic: an
    entry of the matrix is NaN exactly when one of its two columns is
    constant over the rows left by [dropna]; in particular the whole matrix
    is NaN when no row or a single row is left. *)
Theorem correlation_nan_iff_constant titles i j :
  i < 4 → j < 4 →
  pd.entry (views.corr_matrix titles) i j = Some None ↔
  pages.constant_column titles i ∨ pages.constant_column titles j.
Proof.
  intros Hi Hj. rewrite corr_matrix_entry by done.
  unfold pages.constant_column.
  destruct (corr_column_complete titles i Hi) as (vs & -> & Hvs).
  destruct (corr_column_complete titles j Hj) as (ws & -> & Hws).
  rewrite !observed_Some, <-pair_corr_nan_iff by congruence.
  split; congruence.
Qed.

End correlation_entries.

(** *** Charts without bars *)

Section empty_charts.

Lemma value_counts_nil_iff {A B} `{EqDecision B} (f : A → option B)
    (rows : list A) :
  pd.value_counts (f <$> rows) true = [] ↔ Forall (λ r, f r = None) rows.
Proof.
  split.
  - intros Hnil. apply Forall_forall. intros r Hr.
    destruct (f r) as [b|] eqn:Hf; [|done].
    pose proof (value_counts_complete_row f rows r b Hr Hf) as Hin.
    rewrite Hnil in Hin. by apply elem_of_nil in Hin.
  - intros Hall. unfold pd.value_counts.
    assert (filter (λ v, is_Some v) (f <$> rows) = []) as ->; [|done].
    induction Hall as [|r rows Hr Hall IH]; [done|].
    csimpl. rewrite Hr, filter_cons, decide_False by (by intros [? ?]). done.
Qed.

(** X18.  Genre Analysis and Content Type Distribution draw a chart
    without bars exactly when no row of the table has a genre, respectively a
    type (an empty table in particular); the branch still returns normally. *)
Theorem chart_without_bars titles :
  (views.genre_counts titles = [] ↔
   Forall (λ r, primary_genre r = None) titles) ∧
  (views.type_counts titles = [] ↔ Forall (λ r, type r = None) titles).
Proof.
  rewrite genre_counts_unfiltered. unfold views.type_counts.
  split; apply value_counts_nil_iff.
Qed.

End empty_charts.

(** *** The further properties on the sample data *)

Lemma genre_filter_redundant_witness :
  ∃ w', app.genre_analysis 0 sample.loaded = (py.Ok (), w') ∧
        length (py.page w') = 2.
Proof.
  destruct (genre_filter_redundant sample.loaded 0 sample.titles eq_refl)
    as (w' & Hrun & Hpage).
  exists w'. split; [done|]. by rewrite Hpage.
Defined.

Lemma genre_and_type_bars_witness :
  (Some "drama", 2) ∈ views.genre_counts sample.titles.
Proof.
  destruct (genre_and_type_bars sample.titles) as (Hgenre & _).
  apply (Hgenre (Title (Some "MOVIE") (Some "drama") (Some 2001%Z)
                   (Some (7 # 1)) (Some (1000 # 1)) (Some (6 # 1))
                   (Some (12 # 1))) "drama");
    [apply list_elem_of_here|reflexivity].
Defined.

Lemma top_20_leaves_out_only_smaller_witness :
  (Some "a25", 1) ∈ views.counts "ACTOR" sample.crowd ∨
  (length (views.counts "ACTOR" sample.crowd) = 20 ∧
   ∀ k c, (k, c) ∈ views.counts "ACTOR" sample.crowd → 1 ≤ c).
Proof.
  apply (top_20_leaves_out_only_smaller "ACTOR" sample.crowd "a25").
  vm_compute. lia.
Defined.

Lemma bars_count_kept_rows_witness :
  sum_list (views.counts "ACTOR" sample.credits).*2
    ≤ length (views.filtered_df "ACTOR" sample.credits).
Proof. exact (proj1 (bars_count_kept_rows "ACTOR" sample.credits)). Defined.

Lemma dataset_overview_first_rows_witness :
  ∃ w' shown, app.dataset_overview 0 sample.loaded = (py.Ok (), w') ∧
              length shown = 4 ∧ shown `prefix_of` sample.titles.
Proof.
  destruct (dataset_overview_first_rows sample.loaded 0 sample.titles eq_refl)
    as (w' & ncols & shown & Hrun & _ & Hprefix & Hlen & _).
  exists w', shown. split_and!; assumption.
Defined.

Lemma plots_use_every_row_witness :
  ∃ w' (years : list (option Z)),
    app.release_year_analysis 0 sample.loaded = (py.Ok (), w') ∧
    length years = 4.
Proof.
  destruct (plots_use_every_row sample.loaded 0 sample.titles eq_refl)
    as [(w' & years & Hrun & _ & Hlen & _) _].
  exists w', years. split; assumption.
Defined.

Lemma unknown_section_renders_nothing_witness :
  app.view "Settings" "ACTOR" 0 1 sample.loaded = (py.Ok (), sample.loaded).
Proof.
  apply unknown_section_renders_nothing.
  by apply (bool_decide_unpack _).
Defined.

Lemma missing_column_raises_key_error_witness :
  ∃ w', app.view "Genre Analysis" "ACTOR" 1 2 sample.elsewhere
        = (py.Raise (py.KeyError "primary_genre"), w').
Proof.
  destruct (missing_column_raises_key_error sample.elsewhere 1 2 "ACTOR"
              sample.titles sample.credits eq_refl eq_refl) as (Hgenre & _).
  eexists. exact Hgenre.
Defined.

Lemma every_chart_centred_witness :
  ∃ w' rendered,
    app.view "Ratings & Popularity" "" 0 1 sample.loaded = (py.Ok (), w') ∧
    py.page w' = py.page sample.loaded ++ rendered.
Proof.
  destruct (every_chart_centred sample.loaded 0 1 "Ratings & Popularity" ""
              sample.titles sample.credits eq_refl eq_refl)
    as (w' & rendered & Hrun & Hpage & _).
  exists w', rendered. split; assumption.
Defined.

Lemma main_first_run_witness :
  ∃ w', app.main "Genre Analysis" "" sample.start = (py.Ok (), w') ∧
        py.reads w' = ["data/titles.csv"; "data/credits.csv"].
Proof.
  destruct (main_first_run sample.start "Genre Analysis" "" sample.titles
              sample.credits eq_refl eq_refl eq_refl)
    as (w' & Hrun & _ & Hreads & _).
  exists w'. split; assumption.
Defined.

Lemma main_rerun_uses_cache_witness :
  ∃ w', app.main "Conclusion" "" sample.loaded = (py.Ok (), w') ∧
        py.reads w' = py.reads sample.loaded.
Proof.
  destruct (main_rerun_uses_cache sample.loaded "Conclusion" "" sample.titles
              sample.credits eq_refl) as (w' & Hrun & _ & Hreads & _).
  exists w'. split; assumption.
Defined.

Lemma main_stops_at_failed_load_witness :
  ∃ w', app.main "Genre Analysis" "" sample.broken_start
        = (py.Raise (py.FileNotFoundError "data/credits.csv"), w') ∧
        py.page w' = pages.preamble.
Proof.
  destruct (main_stops_at_failed_load sample.broken_start "Genre Analysis" ""
              (py.FileNotFoundError "data/credits.csv") eq_refl eq_refl)
    as (w' & Hrun & Hpage & _).
  exists w'. split; assumption.
Defined.

Lemma failed_load_is_retried_witness :
  ∃ w', app.cached_load_data sample.broken_start
        = (py.Raise (py.FileNotFoundError "data/credits.csv"), w') ∧
        app.loaded_tables
          (app.cached_load_data (app.between_runs sample.disk [] [] w'))
        = py.Ok (Titles sample.titles, Credits sample.credits).
Proof.
  destruct (failed_load_is_retried sample.broken_start
              (py.FileNotFoundError "data/credits.csv") sample.disk [] []
              (Titles sample.titles) (Credits sample.credits)
              eq_refl eq_refl eq_refl eq_refl) as (w' & Hrun & Hload & _).
  exists w'. split; assumption.
Defined.

Lemma load_data_reads_titles_first_witness :
  py.reads (app.load_data sample.broken_start).2
  = ["data/titles.csv"; "data/credits.csv"].
Proof.
  destruct (proj1 (load_data_reads_titles_first sample.broken_start)
              ltac:(discriminate) ltac:(discriminate)
              (py.FileNotFoundError "data/credits.csv")
              (app.load_data sample.broken_start).2 eq_refl) as [Hreads _].
  exact Hreads.
Defined.

Lemma sample_scores_vary : ¬ pages.constant_column sample.titles 0.
Proof.
  intros [a Ha].
  assert (pd.observed (views.corr_column sample.titles 0)
          = [Q2R (7 # 1); Q2R (8 # 1); Q2R (5 # 1)]) as Hcol by reflexivity.
  rewrite Hcol in Ha.
  apply Forall_cons in Ha as [H7 Ha]. apply Forall_cons in Ha as [H8 _].
  unfold Q2R in H7, H8. simpl in H7, H8. lra.
Qed.

Lemma correlation_entries_in_range_witness : (-1 <= 1 <= 1)%R.
Proof.
  apply (correlation_entries_in_range sample.titles 0 0 1%R);
    [lia|lia|].
  rewrite corr_matrix_entry by lia. f_equal.
  apply pair_corr_diag_spread, sample_scores_vary.
Defined.

Lemma correlation_nan_iff_constant_witness :
  pd.entry (views.corr_matrix sample.same_score) 0 1 = Some None.
Proof.
  apply (correlation_nan_iff_constant sample.same_score 0 1); [lia|lia|].
  left. exists (Q2R (7 # 1)). rewrite same_score_column. by repeat constructor.
Defined.

Lemma chart_without_bars_witness : views.genre_counts [] = [].
Proof. by apply (chart_without_bars []). Defined.
